(** * react-webworker: the <WebWorker> component and its helper components

    A shallow embedding of [src/index.js].  The file under [src/] holds two
    revisions of the module; the later one (the constructor-initialised state,
    Service Worker support through a [MessageChannel]) is the one embedded at
    top level.  Where the earlier revision differs in a way that matters
    below, its code is embedded in [Module Rev1].

    Conventions of the embedding:
    - a JavaScript value is a [value]; [undefined] is [VUndefined];
    - [new Date()] is an input of the method that evaluates it ([now]);
    - the component instance ([this]) is a record threaded through the
      methods; what a method does to the world outside the instance
      (constructing a Worker, assigning a handler to a slot of the handle,
      calling a callback prop, calling the handle's [postMessage] or
      [terminate]) is returned as a list of [Effect]s, in program order;
    - [this.setState(payload, callback)] appends to the update queue of the
      instance; [flush] is React processing that queue while it has the
      component mounted: payloads are merged into the state in order, the
      component re-renders, then the callbacks run in order;
    - React ignores a [setState] of a component it does not have mounted
      (before [componentDidMount], after [componentWillUnmount]): the update
      is never processed and its callback never runs.  [step] is a call
      while the component is mounted, [deliver] a call at any time, and a
      sequence of inputs ([run]) goes through [deliver];
    - [parser] and [serializer] are functions from values to values. *)

From Stdlib Require Import ZArith List String Bool.
Import ListNotations.
Local Open Scope string_scope.
Local Open Scope list_scope.
Set Warnings "-register-all".

(** ** JavaScript values *)

Inductive value : Type :=
| VUndefined
| VNull
| VBool (b : bool)
| VNum (n : Z)
| VStr (s : string)
| VDate (t : Z)
| VArr (items : list value)
| VObj (fields : list (string * value))
| VFunc (name : string).

(** ToBoolean. *)
Definition truthy (v : value) : bool :=
  match v with
  | VUndefined | VNull => false
  | VBool b => b
  | VNum n => negb (n =? 0)%Z
  | VStr s => negb (s =? "")
  | VDate _ | VArr _ | VObj _ | VFunc _ => true
  end.

(** [v === undefined]. *)
Definition is_undefined (v : value) : bool :=
  match v with VUndefined => true | _ => false end.

(** [v === s] for a string literal [s]. *)
Definition is_string (s : string) (v : value) : bool :=
  match v with VStr s' => (s' =? s) | _ => false end.

(** [a || b] on values. *)
Definition js_or (a b : value) : value := if truthy a then a else b.

Inductive exn : Type :=
| JsError (msg : string)
| JsTypeError (msg : string).

Inductive result (A : Type) : Type :=
| Ok (a : A)
| Throw (e : exn).
Arguments Ok {A} a.
Arguments Throw {A} e.

(** ** The platform objects the component talks to *)

(** A worker-like handle: what the component can observe of it.
    [has_onmessage] is ["onmessage" in handle]; [has_postMessage] and
    [has_terminate] say whether the method exists; [w_state] is
    [handle.state] ([VUndefined] when there is none); [controller] is
    [handle.controller] when it is an object (a ServiceWorkerContainer
    whose page is controlled). *)
Inductive Worker : Type := mkWorker {
  wid : nat;
  has_onmessage : bool;
  has_postMessage : bool;
  has_terminate : bool;
  w_state : value;
  controller : option Worker
}.

Record MessageChannel : Type := mkChannel { chan_id : nat }.

Inductive Port : Type :=
| port1 (ch : MessageChannel)
| port2 (ch : MessageChannel).

(** [window.Worker] and [window.MessageChannel]: what the constructors
    return. *)
Record Window : Type := mkWindow {
  new_Worker : value -> value -> Worker;
  new_MessageChannel : MessageChannel
}.

(** A dedicated Worker as the browser makes it: event slots, [postMessage],
    [terminate], no [state], no [controller]. *)
Definition dedicated_worker (id : nat) : Worker :=
  {| wid := id; has_onmessage := true; has_postMessage := true;
     has_terminate := true; w_state := VUndefined; controller := None |}.

Definition browser : Window :=
  {| new_Worker := fun _ _ => dedicated_worker 0;
     new_MessageChannel := mkChannel 0 |}.

(** Events delivered to the handlers: [message.data] and [({ error })]. *)
Record MessageEvent : Type := mkMessageEvent { ev_data : value }.
Record ErrorEvent : Type := mkErrorEvent { ev_error : value }.

(** ** Session state *)

(** [{ data, date }] and [{ error, date }]. *)
Record MessageEntry : Type := mkMessageEntry { m_data : value; m_date : value }.
Record ErrorEntry : Type := mkErrorEntry { e_error : value; e_date : value }.

Record State : Type := mkState {
  messages : list MessageEntry;
  errors : list ErrorEntry;
  data : value;
  error : value;
  updatedAt : value;
  lastPostAt : value;
  st_postMessage : value
}.

(** A partial state, the object handed to or returned to [setState]: the
    keys it has. *)
Record Partial : Type := mkPartial {
  set_messages : option (list MessageEntry);
  set_errors : option (list ErrorEntry);
  set_data : option value;
  set_error : option value;
  set_updatedAt : option value;
  set_lastPostAt : option value
}.

Definition or_keep {A : Type} (new : option A) (old : A) : A :=
  match new with Some a => a | None => old end.

(** [Object.assign({}, state, partial)]: how React merges a partial state. *)
Definition assign (st : State) (p : Partial) : State :=
  {| messages := or_keep (set_messages p) (messages st);
     errors := or_keep (set_errors p) (errors st);
     data := or_keep (set_data p) (data st);
     error := or_keep (set_error p) (error st);
     updatedAt := or_keep (set_updatedAt p) (updatedAt st);
     lastPostAt := or_keep (set_lastPostAt p) (lastPostAt st);
     st_postMessage := st_postMessage st |}.

(** ** Props *)

(** [children] of a component: a function or a node. *)
Inductive Children (A : Type) : Type :=
| FunctionContent (f : A -> value)
| StaticContent (node : value).
Arguments FunctionContent {A} f.
Arguments StaticContent {A} node.

Module Props.

(** [onMessage] and [onError] are opaque callbacks of the application:
    what matters is whether they were given, and with what they are
    called. *)
Record t : Type := mk {
  url : value;
  options : value;
  worker : option Worker;
  parser : option (value -> value);
  serializer : option (value -> value);
  onMessage : bool;
  onError : bool;
  children : Children State
}.

End Props.

(** ** The instance, its update queue and its effects *)

(** The second argument of [setState], as the closure the source writes;
    [NoCallback] when the call has none. *)
Inductive Callback : Type :=
| NoCallback
| NotifyMessage (d : value)
    (* () => this.props.onMessage && this.props.onMessage(data) *)
| NotifyError (e : value)
    (* () => this.props.onError && this.props.onError(error) *)
| Dispatch (serializer : value -> value) (d : value).
    (* () => this.messageChannel ? postMessage.call(this.worker, serializer(data), [port2])
                                 : postMessage.call(this.worker, serializer(data)) *)

(** The first argument of [setState]: an object or an updater function. *)
Inductive Payload : Type :=
| ObjectPayload (p : Partial)
| UpdaterPayload (f : State -> Partial).

Record Update : Type := mkUpdate { payload : Payload; callback : Callback }.

Record Instance : Type := mkInstance {
  props : Props.t;
  state : State;
  worker : option Worker;                  (* this.worker *)
  messageChannel : option MessageChannel;  (* this.messageChannel *)
  mounted : bool;                          (* this.mounted, undefined at first *)
  queue : list Update                      (* updates React has not processed yet *)
}.

Inductive Handler : Type := HOnMessage | HOnError.

Inductive Target : Type :=
| OnWorker (w : Worker)
| OnPort (p : Port).

Inductive Effect : Type :=
| NewWorker (url options : value)
| NewMessageChannel
| Bind (target : Target) (slot : string) (h : Handler)
| Rendered (st : State)
| CallOnMessage (d : value)
| CallOnError (e : value)
| CallPostMessage (this_arg : option Worker) (message : value)
    (transfer : option (list Port))
| CallTerminate (w : Worker).

Inductive outcome : Type :=
| Returned (c : Instance) (fx : list Effect)
| Thrown (e : exn) (c : Instance) (fx : list Effect).

Definition set_state (st : State) (c : Instance) : Instance :=
  {| props := props c; state := st; worker := worker c;
     messageChannel := messageChannel c; mounted := mounted c;
     queue := queue c |}.

Definition set_queue (q : list Update) (c : Instance) : Instance :=
  {| props := props c; state := state c; worker := worker c;
     messageChannel := messageChannel c; mounted := mounted c;
     queue := q |}.

Definition set_mounted (b : bool) (c : Instance) : Instance :=
  {| props := props c; state := state c; worker := worker c;
     messageChannel := messageChannel c; mounted := b;
     queue := queue c |}.

Definition set_worker (w : Worker) (c : Instance) : Instance :=
  {| props := props c; state := state c; worker := Some w;
     messageChannel := messageChannel c; mounted := mounted c;
     queue := queue c |}.

Definition set_messageChannel (ch : MessageChannel) (c : Instance) : Instance :=
  {| props := props c; state := state c; worker := worker c;
     messageChannel := Some ch; mounted := mounted c;
     queue := queue c |}.

(** [this.setState(payload, callback)]. *)
Definition setState (p : Payload) (cb : Callback) (c : Instance) : Instance :=
  set_queue (queue c ++ [mkUpdate p cb]) c.

Definition apply_payload (st : State) (p : Payload) : State :=
  match p with
  | ObjectPayload o => assign st o
  | UpdaterPayload f => assign st (f st)
  end.

(** Running a [setState] callback on the instance as it is after the
    commit. *)
Definition run_callback (c : Instance) (cb : Callback) : list Effect :=
  match cb with
  | NoCallback => []
  | NotifyMessage d => if Props.onMessage (props c) then [CallOnMessage d] else []
  | NotifyError e => if Props.onError (props c) then [CallOnError e] else []
  | Dispatch serializer d =>
      match messageChannel c with
      | Some ch => [CallPostMessage (worker c) (serializer d) (Some [port2 ch])]
      | None => [CallPostMessage (worker c) (serializer d) None]
      end
  end.

(** React processing the update queue of a component it has mounted. *)
Definition flush (c : Instance) : Instance * list Effect :=
  match queue c with
  | [] => (c, [])
  | q =>
      let st' := fold_left apply_payload (map payload q) (state c) in
      let c' := set_queue [] (set_state st' c) in
      (c', Rendered st' :: flat_map (run_callback c') (map callback q))
  end.

(** ** The component *)

(** The state the constructor sets. *)
Definition initial_state : State :=
  {| messages := []; errors := []; data := VUndefined; error := VUndefined;
     updatedAt := VUndefined; lastPostAt := VUndefined;
     st_postMessage := VFunc "postMessage" |}.

(** A new instance: nothing attached, [this.mounted] not set. *)
Definition constructor (p : Props.t) : Instance :=
  {| props := p; state := initial_state; worker := None;
     messageChannel := None; mounted := false; queue := [] |}.

(** [this.props.parser ? this.props.parser(message.data) : message.data] *)
Definition parse (p : Props.t) (raw : value) : value :=
  match Props.parser p with Some f => f raw | None => raw end.

(** The handler of message events. *)
Definition onMessage (now : Z) (message : MessageEvent) (c : Instance) : outcome :=
  if negb (mounted c) then Returned c []
  else
    let d := parse (props c) (ev_data message) in
    let date := VDate now in
    Returned
      (setState
         (UpdaterPayload (fun state =>
            {| set_data := Some d; set_error := Some VUndefined;
               set_messages := Some (messages state ++ [mkMessageEntry d date]);
               set_updatedAt := Some date;
               set_errors := None; set_lastPostAt := None |}))
         (NotifyMessage d) c)
      [].

(** The handler of error events; the event is destructured before the
    guard. *)
Definition onError (now : Z) (ev : ErrorEvent) (c : Instance) : outcome :=
  let e := ev_error ev in
  if negb (mounted c) then Returned c []
  else
    let date := VDate now in
    Returned
      (setState
         (UpdaterPayload (fun state =>
            {| set_error := Some e;
               set_errors := Some (errors state ++ [mkErrorEntry e date]);
               set_updatedAt := Some date;
               set_messages := None; set_data := None; set_lastPostAt := None |}))
         (NotifyError e) c)
      [].

(** [const { serializer = x => x } = this.props] *)
Definition serialize (p : Props.t) : value -> value :=
  match Props.serializer p with Some f => f | None => fun x => x end.

(** The send operation.  The method is read off the handle
    ([this.worker || {}]); without one the call throws; a handle with a
    truthy [state] other than ["activated"] makes it return. *)
Definition postMessage (now : Z) (d : value) (c : Instance) : outcome :=
  let serializer := serialize (props c) in
  match worker c with
  | None => Thrown (JsError "Worker not initialized") c []
  | Some w =>
      if negb (has_postMessage w) then
        Thrown (JsError "Worker not initialized") c []
      else if truthy (w_state w) && negb (is_string "activated" (w_state w)) then
        Returned c []
      else
        Returned
          (setState
             (ObjectPayload
                {| set_lastPostAt := Some (VDate now);
                   set_messages := None; set_errors := None; set_data := None;
                   set_error := None; set_updatedAt := None |})
             (Dispatch serializer d) c)
          []
  end.

(** [url ? new window.Worker(url, options) : worker.controller || worker]. *)
Definition resolve_worker (window : Window) (p : Props.t)
  : result (Worker * list Effect) :=
  if truthy (Props.url p) then
    Ok (new_Worker window (Props.url p) (Props.options p),
        [NewWorker (Props.url p) (Props.options p)])
  else
    match Props.worker p with
    | None => Throw (JsTypeError "Cannot read property 'controller' of undefined")
    | Some w =>
        Ok (match controller w with Some sw => sw | None => w end, [])
    end.

(** The handlers go to the slots of the handle when it has an [onmessage]
    slot, to the first port of a new channel otherwise. *)
Definition componentDidMount (window : Window) (c : Instance) : outcome :=
  match resolve_worker window (props c) with
  | Throw e => Thrown e c []
  | Ok (w, fx) =>
      let c1 := set_worker w c in
      if has_onmessage w then
        Returned (set_mounted true c1)
          (fx ++ [Bind (OnWorker w) "onmessage" HOnMessage;
                  Bind (OnWorker w) "onerror" HOnError])
      else
        let ch := new_MessageChannel window in
        Returned (set_mounted true (set_messageChannel ch c1))
          (fx ++ [NewMessageChannel;
                  Bind (OnPort (port1 ch)) "onmessage" HOnMessage;
                  Bind (OnPort (port1 ch)) "onmessageerror" HOnError])
  end.

(** [this.mounted = false; this.props.worker || this.worker.terminate()]. *)
Definition componentWillUnmount (c : Instance) : outcome :=
  let c' := set_mounted false c in
  match Props.worker (props c) with
  | Some _ => Returned c' []
  | None =>
      match worker c with
      | None => Thrown (JsTypeError "Cannot read property 'terminate' of undefined") c' []
      | Some w =>
          if has_terminate w then Returned c' [CallTerminate w]
          else Thrown (JsTypeError "this.worker.terminate is not a function") c' []
      end
  end.

(** [render()]: what the component returns. *)
Inductive Element : Type :=
| Null
| Provider (v : State) (child : value).

Definition is_null (v : value) : bool :=
  match v with VNull => true | _ => false end.

(** The state is provided to the children when there are any. *)
Definition render (c : Instance) : Element :=
  match Props.children (props c) with
  | FunctionContent f => Provider (state c) (f (state c))
  | StaticContent n =>
      if negb (is_undefined n) && negb (is_null n) then Provider (state c) n
      else Null
  end.

(** ** The context and the helper components *)

(** What a consumer reads: [undefined] ([None]) or a state object. *)
Definition ContextValue : Type := option State.

Record Context : Type := mkContext { defaultValue : ContextValue }.

Definition createContext (d : ContextValue) : Context := mkContext d.

(** [<Consumer>{f}</Consumer>] rendered below the providers [above], the
    nearest first: [f] receives the value of the nearest provider, or the
    default of the context when there is none. *)
Definition Consumer {A : Type} (ctx : Context) (above : list State)
  (f : ContextValue -> A) : A :=
  match above with
  | v :: _ => f (Some v)
  | [] => f (defaultValue ctx)
  end.

(** [const { Consumer, Provider } = React.createContext()] *)
Definition context : Context := createContext None.

Module WebWorker.

(** [typeof children === "function" ? children(...) : children || null] *)
Definition content {A : Type} (children : Children A) (a : A) : value :=
  match children with
  | FunctionContent f => f a
  | StaticContent n => js_or n VNull
  end.

Definition Pending (children : Children State) (persist : value)
  (state : ContextValue) : result value :=
  match state with
  | None => Throw (JsTypeError "Cannot read property 'data' of undefined")
  | Some st =>
      if negb (is_undefined (data st)) then Ok VNull
      else if negb (truthy persist) && negb (is_undefined (error st)) then Ok VNull
      else Ok (content children st)
  end.

Definition Data (children : Children (value * State))
  (state : ContextValue) : result value :=
  match state with
  | None => Throw (JsTypeError "Cannot read property 'data' of undefined")
  | Some st =>
      if is_undefined (data st) then Ok VNull
      else Ok (content children (data st, st))
  end.

Definition Error (children : Children (value * State))
  (state : ContextValue) : result value :=
  match state with
  | None => Throw (JsTypeError "Cannot read property 'error' of undefined")
  | Some st =>
      if is_undefined (error st) then Ok VNull
      else Ok (content children (error st, st))
  end.

End WebWorker.

(** ** Driving the component *)

Definition instance_of (o : outcome) : Instance :=
  match o with Returned c _ | Thrown _ c _ => c end.

Definition effects_of (o : outcome) : list Effect :=
  match o with Returned _ fx | Thrown _ _ fx => fx end.

Definition raised (o : outcome) : option exn :=
  match o with Returned _ _ => None | Thrown e _ _ => Some e end.

(** A method of a mounted component called outside a React batch: React
    processes the queue before control returns to the caller. *)
Definition then_flush (o : outcome) : outcome :=
  match o with
  | Returned c fx => let (c', fx') := flush c in Returned c' (fx ++ fx')
  | Thrown e c fx => Thrown e c fx
  end.

(** What can happen to a mounted component. *)
Inductive Input : Type :=
| Message (now : Z) (ev : MessageEvent)
| Failure (now : Z) (ev : ErrorEvent)
| Send (now : Z) (d : value)
| Unmount.

(** The call of a method of a mounted component, with the processing of
    the queue that follows it. *)
Definition step (i : Input) (c : Instance) : outcome :=
  then_flush
    match i with
    | Message now ev => onMessage now ev c
    | Failure now ev => onError now ev c
    | Send now d => postMessage now d c
    | Unmount => componentWillUnmount c
    end.

(** The same outcome on another instance. *)
Definition on_instance (f : Instance -> Instance) (o : outcome) : outcome :=
  match o with
  | Returned c fx => Returned (f c) fx
  | Thrown e c fx => Thrown e (f c) fx
  end.

(** The method an input calls, without the processing of the queue that
    follows it outside a batch. *)
Definition handle (i : Input) (c : Instance) : outcome :=
  match i with
  | Message now ev => onMessage now ev c
  | Failure now ev => onError now ev c
  | Send now d => postMessage now d c
  | Unmount => componentWillUnmount c
  end.

(** The call of a method at any time of the life of the component.  While
    React has it mounted the queue is processed ([step]).  Otherwise the
    method runs all the same, but React ignores the [setState] it may do:
    the queue is left as it was, nothing is merged or rendered, and the
    callback is never called.  [this.mounted] is set by
    [componentDidMount] and cleared by [componentWillUnmount], so it tells
    the two apart. *)
Definition deliver (i : Input) (c : Instance) : outcome :=
  if mounted c then step i c
  else on_instance (set_queue (queue c)) (handle i c).

(** A sequence of inputs; an exception reaches the caller of the method and
    the component lives on. *)
Fixpoint run (ins : list Input) (c : Instance) : Instance * list Effect :=
  match ins with
  | [] => (c, [])
  | i :: rest =>
      let o := deliver i c in
      let (c', fx) := run rest (instance_of o) in
      (c', effects_of o ++ fx)
  end.

(** ** The earlier revision, where it differs *)

Module Rev1.

Definition getInitialState : State :=
  {| messages := []; errors := []; data := VUndefined; error := VUndefined;
     updatedAt := VUndefined; lastPostAt := VUndefined;
     st_postMessage := VUndefined |}.

(** [const { Consumer, Provider } = React.createContext(getInitialState())] *)
Definition context : Context := createContext (Some getInitialState).

(** [state = getInitialState()] *)
Definition constructor (p : Props.t) : Instance :=
  {| props := p; state := getInitialState; worker := None;
     messageChannel := None; mounted := false; queue := [] |}.

(** [getInitialState()] as the argument of [setState]: every key it has. *)
Definition initial_keys : Partial :=
  {| set_messages := Some []; set_errors := Some [];
     set_data := Some VUndefined; set_error := Some VUndefined;
     set_updatedAt := Some VUndefined; set_lastPostAt := Some VUndefined |}.

(** [worker || new window.Worker(url, options)] *)
Definition resolve_worker (window : Window) (p : Props.t)
  : Worker * list Effect :=
  match Props.worker p with
  | Some w => (w, [])
  | None =>
      (new_Worker window (Props.url p) (Props.options p),
       [NewWorker (Props.url p) (Props.options p)])
  end.

(** The handlers are assigned to the slots of the handle, whatever it is,
    and the state is reset. *)
Definition componentDidMount (window : Window) (c : Instance) : outcome :=
  let (w, fx) := resolve_worker window (props c) in
  Returned
    (setState (ObjectPayload initial_keys) NoCallback
       (set_mounted true (set_worker w c)))
    (fx ++ [Bind (OnWorker w) "onmessage" HOnMessage;
            Bind (OnWorker w) "onerror" HOnError]).

Definition attached (window : Window) (p : Props.t) : Instance :=
  instance_of (then_flush (componentDidMount window (constructor p))).

End Rev1.

(** ** The contract, in the words of the specification *)

(** onMessage: "append {parsedData, now} to [messages], set
    [lastData = parsedData], clear [lastError], set [updatedAt = now]". *)
Definition after_message (parsed : value) (now : Z) (st : State) : State :=
  {| messages := messages st ++ [mkMessageEntry parsed (VDate now)];
     errors := errors st;
     data := parsed;
     error := VUndefined;
     updatedAt := VDate now;
     lastPostAt := lastPostAt st;
     st_postMessage := st_postMessage st |}.

(** onError: "appends {error, now} to [errors], sets [lastError = error],
    sets [updatedAt = now] - does NOT touch [lastData] or [messages]". *)
Definition after_error (e : value) (now : Z) (st : State) : State :=
  {| messages := messages st;
     errors := errors st ++ [mkErrorEntry e (VDate now)];
     data := data st;
     error := e;
     updatedAt := VDate now;
     lastPostAt := lastPostAt st;
     st_postMessage := st_postMessage st |}.

(** send: "updates [lastPostAt = now]". *)
Definition after_send (now : Z) (st : State) : State :=
  {| messages := messages st;
     errors := errors st;
     data := data st;
     error := error st;
     updatedAt := updatedAt st;
     lastPostAt := VDate now;
     st_postMessage := st_postMessage st |}.

(** The state after a sequence of messages, each processed as above. *)
Definition after_messages (p : Props.t) (evs : list (Z * MessageEvent))
  (st : State) : State :=
  fold_left (fun s m => after_message (parse p (ev_data (snd m))) (fst m) s) evs st.

Definition entry (p : Props.t) (m : Z * MessageEvent) : MessageEntry :=
  mkMessageEntry (parse p (ev_data (snd m))) (VDate (fst m)).

Definition messages_in (evs : list (Z * MessageEvent)) : list Input :=
  map (fun m => Message (fst m) (snd m)) evs.

(** "After the state update is committed, invokes an optional external
    notification callback with the parsed data": per message, the render of
    the new state, then the call of the callback when there is one. *)
Definition notify_message (p : Props.t) (d : value) : list Effect :=
  if Props.onMessage p then [CallOnMessage d] else [].

Definition notify_error (p : Props.t) (e : value) : list Effect :=
  if Props.onError p then [CallOnError e] else [].

Fixpoint message_trace (p : Props.t) (st : State)
  (evs : list (Z * MessageEvent)) : list Effect :=
  match evs with
  | [] => []
  | m :: rest =>
      let d := parse p (ev_data (snd m)) in
      let st' := after_message d (fst m) st in
      (Rendered st' :: notify_message p d) ++ message_trace p st' rest
  end.

(** The handle passes the guards of [postMessage]: it has the method, and
    its [state] is falsy or ["activated"]. *)
Definition accepts_dispatch (w : Worker) : bool :=
  has_postMessage w
  && negb (truthy (w_state w) && negb (is_string "activated" (w_state w))).

(** The third argument of the handle's [postMessage]. *)
Definition transfer_of (c : Instance) : option (list Port) :=
  match messageChannel c with
  | Some ch => Some [port2 ch]
  | None => None
  end.

Definition is_dispatch (e : Effect) : bool :=
  match e with CallPostMessage _ _ _ => true | _ => false end.

Definition is_terminate (e : Effect) : bool :=
  match e with CallTerminate _ => true | _ => false end.

(** Pending: "renders its content only while [lastData] is absent AND
    (either [lastError] is absent OR a persistence flag is set)". *)
Definition pending_shows (persist : value) (st : State) : bool :=
  is_undefined (data st) && (is_undefined (error st) || truthy persist).

Definition is_bind (e : Effect) : bool :=
  match e with Bind _ _ _ => true | _ => false end.

(** Events of the handle, as opposed to calls of the application. *)
Definition is_event (i : Input) : bool :=
  match i with Message _ _ | Failure _ _ => true | Send _ _ | Unmount => false end.

(** The entries a sequence of inputs should leave in [messages] and in
    [errors]: one per message event, one per error event, in order. *)
Definition message_entries (p : Props.t) (ins : list Input) : list MessageEntry :=
  flat_map
    (fun i =>
       match i with
       | Message now ev => [mkMessageEntry (parse p (ev_data ev)) (VDate now)]
       | _ => []
       end)
    ins.

Definition error_entries (ins : list Input) : list ErrorEntry :=
  flat_map
    (fun i =>
       match i with
       | Failure now ev => [mkErrorEntry (ev_error ev) (VDate now)]
       | _ => []
       end)
    ins.

Definition is_unmount (i : Input) : bool :=
  match i with Unmount => true | _ => false end.

(** The message handler called for each event of a sequence with no
    processing of the queue in between, as inside a React batch. *)
Fixpoint enqueue_messages (evs : list (Z * MessageEvent)) (c : Instance)
  : Instance :=
  match evs with
  | [] => c
  | m :: rest => enqueue_messages rest (instance_of (onMessage (fst m) (snd m) c))
  end.

(** The state the queued updates lead to. *)
Definition pending_state (c : Instance) : State :=
  fold_left apply_payload (map payload (queue c)) (state c).

(** The providers a rendered bridge puts above its children. *)
Definition provided (e : Element) : list State :=
  match e with
  | Provider v _ => [v]
  | Null => []
  end.

(** Whether [send] on this instance gets past its guards. *)
Definition can_send (c : Instance) : bool :=
  match worker c with
  | Some w => accepts_dispatch w
  | None => false
  end.

(** The Session State as a state machine over the inputs of a mounted
    bridge, in the words of the specification. *)
Definition spec_step (p : Props.t) (sends : bool) (st : State) (i : Input)
  : State :=
  match i with
  | Message now ev => after_message (parse p (ev_data ev)) now st
  | Failure now ev => after_error (ev_error ev) now st
  | Send now _ => if sends then after_send now st else st
  | Unmount => st
  end.

(** ** What a sequence of inputs should leave behind *)

Definition is_notification (e : Effect) : bool :=
  match e with CallOnMessage _ | CallOnError _ => true | _ => false end.

(** Effects on the handle and the platform other than a dispatch. *)
Definition is_wiring (e : Effect) : bool :=
  match e with
  | NewWorker _ _ | NewMessageChannel | Bind _ _ _ | CallTerminate _ => true
  | _ => false
  end.

(** The callback calls a sequence of inputs asks for: one per event, with
    the parsed data or the error, when the callback was given. *)
Definition notifications_of (p : Props.t) (ins : list Input) : list Effect :=
  flat_map
    (fun i =>
       match i with
       | Message _ ev => notify_message p (parse p (ev_data ev))
       | Failure _ ev => notify_error p (ev_error ev)
       | _ => []
       end)
    ins.

(** The calls of the handle's [postMessage] a sequence of inputs asks for:
    one per send, on handle [w], with transfer list [tr]. *)
Definition dispatches_of (p : Props.t) (w : option Worker)
  (tr : option (list Port)) (ins : list Input) : list Effect :=
  flat_map
    (fun i =>
       match i with
       | Send _ x => [CallPostMessage w (serialize p x) tr]
       | _ => []
       end)
    ins.

(** The date of the last event, and of the last send, of a sequence. *)
Definition last_event_time (ins : list Input) (t0 : value) : value :=
  fold_left
    (fun t i =>
       match i with
       | Message now _ | Failure now _ => VDate now
       | _ => t
       end)
    ins t0.

Definition last_send_time (ins : list Input) (t0 : value) : value :=
  fold_left
    (fun t i => match i with Send now _ => VDate now | _ => t end)
    ins t0.

(** The payload of the last message, parsed, and the last error unless a
    message came after it. *)
Definition last_data (p : Props.t) (ins : list Input) (d0 : value) : value :=
  fold_left
    (fun d i => match i with Message _ ev => parse p (ev_data ev) | _ => d end)
    ins d0.

Definition last_error (ins : list Input) (e0 : value) : value :=
  fold_left
    (fun e i =>
       match i with
       | Message _ _ => VUndefined
       | Failure _ ev => ev_error ev
       | _ => e
       end)
    ins e0.

(** The inputs of a sequence that come before its first unmount. *)
Fixpoint before_unmount (ins : list Input) : list Input :=
  match ins with
  | [] => []
  | Unmount :: _ => []
  | i :: rest => i :: before_unmount rest
  end.

(** The methods called one after the other inside one React batch: the
    queue is processed once, at the end. *)
Fixpoint enqueue (ins : list Input) (c : Instance) : Instance :=
  match ins with
  | [] => c
  | i :: rest => enqueue rest (instance_of (handle i c))
  end.

(** ** Concrete props, handles and instances *)

Definition no_children : Children State := StaticContent VUndefined.

(** A parser and a serializer that wrap the payload. *)
Definition wrap_parser (raw : value) : value := VObj [("parsed", raw)].
Definition wrap_serializer (v : value) : value := VArr [v].

(** [<WebWorker url="/worker.js" onMessage={...} onError={...} />] *)
Definition url_props : Props.t :=
  {| Props.url := VStr "/worker.js"; Props.options := VUndefined;
     Props.worker := None; Props.parser := None; Props.serializer := None;
     Props.onMessage := true; Props.onError := true;
     Props.children := no_children |}.

(** The same with [parser] and [serializer]. *)
Definition transforming_props : Props.t :=
  {| Props.url := VStr "/worker.js"; Props.options := VUndefined;
     Props.worker := None; Props.parser := Some wrap_parser;
     Props.serializer := Some wrap_serializer;
     Props.onMessage := true; Props.onError := false;
     Props.children := no_children |}.

(** A Worker made by the application. *)
Definition custom_worker : Worker :=
  {| wid := 5; has_onmessage := true; has_postMessage := true;
     has_terminate := true; w_state := VUndefined; controller := None |}.

(** A Service Worker in a given state: no [onmessage] slot, no
    [terminate]. *)
Definition service_worker (st : value) : Worker :=
  {| wid := 7; has_onmessage := false; has_postMessage := true;
     has_terminate := false; w_state := st; controller := None |}.

(** A worker-like object of the application with a [state] of its own. *)
Definition stateful_worker (st : value) : Worker :=
  {| wid := 8; has_onmessage := true; has_postMessage := true;
     has_terminate := true; w_state := st; controller := None |}.

(** A worker-like object with nothing but a [state]. *)
Definition mute_worker : Worker :=
  {| wid := 9; has_onmessage := true; has_postMessage := false;
     has_terminate := false; w_state := VStr "installing"; controller := None |}.

(** [<WebWorker worker={w} />] *)
Definition worker_props (w : Worker) : Props.t :=
  {| Props.url := VUndefined; Props.options := VUndefined;
     Props.worker := Some w; Props.parser := None; Props.serializer := None;
     Props.onMessage := false; Props.onError := false;
     Props.children := no_children |}.

(** [<WebWorker url="/worker.js" worker={w} />] *)
Definition both_props (w : Worker) : Props.t :=
  {| Props.url := VStr "/worker.js"; Props.options := VUndefined;
     Props.worker := Some w; Props.parser := None; Props.serializer := None;
     Props.onMessage := false; Props.onError := false;
     Props.children := no_children |}.

(** The instance after construction and mount. *)
Definition attached (window : Window) (p : Props.t) : Instance :=
  instance_of (componentDidMount window (constructor p)).

Definition foo_bar_baz : list (Z * MessageEvent) :=
  [(1%Z, mkMessageEvent (VStr "foo"));
   (2%Z, mkMessageEvent (VStr "bar"));
   (3%Z, mkMessageEvent (VStr "baz"))].

(** A helper with no content. *)
Definition no_children_of_pair : Children (value * State) :=
  StaticContent VUndefined.

(** [<WebWorker />]: neither [url] nor [worker]. *)
Definition bare_props : Props.t :=
  {| Props.url := VUndefined; Props.options := VUndefined;
     Props.worker := None; Props.parser := None; Props.serializer := None;
     Props.onMessage := false; Props.onError := false;
     Props.children := no_children |}.

(** [navigator.serviceWorker] of a page controlled by [sw]: event slots, no
    [postMessage], no [terminate]. *)
Definition container (sw : option Worker) : Worker :=
  {| wid := 3; has_onmessage := true; has_postMessage := false;
     has_terminate := false; w_state := VUndefined; controller := sw |}.

(** [<WebWorker url="/worker.js">pending...</WebWorker>] *)
Definition url_props_with (children : Children State) : Props.t :=
  {| Props.url := VStr "/worker.js"; Props.options := VUndefined;
     Props.worker := None; Props.parser := None; Props.serializer := None;
     Props.onMessage := true; Props.onError := true;
     Props.children := children |}.

Definition mixed_inputs : list Input :=
  [Message 1%Z (mkMessageEvent (VStr "foo"));
   Failure 2%Z (mkErrorEvent (VStr "boom"));
   Send 3%Z (VStr "hello");
   Message 4%Z (mkMessageEvent (VStr "bar"))].

(** * Properties *)

(** ** Records and the queue *)

Lemma set_state_same (c : Instance) : set_state (state c) c = c.
Proof. destruct c; reflexivity. Qed.

Lemma flush_empty (c : Instance) : queue c = [] -> flush c = (c, []).
Proof. intros H. unfold flush. rewrite H. reflexivity. Qed.

(** One update on an empty queue: the payload is merged, the component
    re-renders, the callback runs. *)
Lemma flush_one (c : Instance) (p : Payload) (cb : Callback) :
  queue c = [] ->
  flush (setState p cb c)
  = (set_state (apply_payload (state c) p) c,
     Rendered (apply_payload (state c) p)
       :: run_callback (set_state (apply_payload (state c) p) c) cb).
Proof.
  intros Hq. destruct c as [pr st w mc m q]. simpl in Hq. subst q.
  unfold flush, setState, set_queue, set_state. simpl.
  rewrite app_nil_r. reflexivity.
Qed.

(** While the component is mounted a call is a step. *)
Lemma deliver_mounted (i : Input) (c : Instance) :
  mounted c = true -> deliver i c = step i c.
Proof. intros H. unfold deliver. rewrite H. reflexivity. Qed.

Lemma set_queue_same (c : Instance) : set_queue (queue c) c = c.
Proof. destruct c; reflexivity. Qed.

(** ** Mounting *)

Lemma componentDidMount_attaches (window : Window) (p : Props.t)
  (c : Instance) (fx : list Effect) :
  componentDidMount window (constructor p) = Returned c fx ->
  props c = p /\ state c = initial_state /\ mounted c = true /\ queue c = []
  /\ exists w, worker c = Some w.
Proof.
  unfold componentDidMount.
  destruct (resolve_worker window (props (constructor p))) as [[w fx0]|e];
    [|discriminate].
  destruct (has_onmessage w); intros H; inversion H; subst; clear H;
    simpl; repeat split; eauto.
Qed.

(** ** Messages *)

Lemma step_message (now : Z) (ev : MessageEvent) (c : Instance) :
  mounted c = true -> queue c = [] ->
  let d := parse (props c) (ev_data ev) in
  step (Message now ev) c
  = Returned (set_state (after_message d now (state c)) c)
      (Rendered (after_message d now (state c)) :: notify_message (props c) d).
Proof.
  intros Hm Hq d. unfold step, onMessage. rewrite Hm. simpl.
  rewrite flush_one by assumption. reflexivity.
Qed.

Lemma step_failure (now : Z) (ev : ErrorEvent) (c : Instance) :
  mounted c = true -> queue c = [] ->
  step (Failure now ev) c
  = Returned (set_state (after_error (ev_error ev) now (state c)) c)
      (Rendered (after_error (ev_error ev) now (state c))
         :: notify_error (props c) (ev_error ev)).
Proof.
  intros Hm Hq. unfold step, onError. rewrite Hm. simpl.
  rewrite flush_one by assumption. reflexivity.
Qed.

Lemma run_messages (evs : list (Z * MessageEvent)) :
  forall c : Instance,
    mounted c = true -> queue c = [] ->
    run (messages_in evs) c
    = (set_state (after_messages (props c) evs (state c)) c,
       message_trace (props c) (state c) evs).
Proof.
  induction evs as [|[now ev] rest IH]; intros c Hm Hq.
  - simpl. unfold after_messages. simpl. rewrite set_state_same. reflexivity.
  - simpl. rewrite deliver_mounted by assumption.
    rewrite step_message by assumption. simpl instance_of. simpl effects_of.
    rewrite IH by (destruct c; assumption).
    destruct c; reflexivity.
Qed.

Lemma after_messages_messages (p : Props.t) (evs : list (Z * MessageEvent)) :
  forall st : State,
    messages (after_messages p evs st) = messages st ++ map (entry p) evs.
Proof.
  induction evs as [|m rest IH]; intros st.
  - simpl. symmetry. apply app_nil_r.
  - unfold after_messages in *. simpl. rewrite IH. simpl.
    rewrite <- app_assoc. reflexivity.
Qed.

Lemma after_messages_frame (p : Props.t) (evs : list (Z * MessageEvent)) :
  forall st : State,
    errors (after_messages p evs st) = errors st
    /\ lastPostAt (after_messages p evs st) = lastPostAt st.
Proof.
  induction evs as [|m rest IH]; intros st.
  - split; reflexivity.
  - unfold after_messages in *. simpl.
    destruct (IH (after_message (parse p (ev_data (snd m))) (fst m) st)) as [H1 H2].
    rewrite H1, H2. split; reflexivity.
Qed.

Lemma after_messages_last (p : Props.t) (pre : list (Z * MessageEvent))
  (now : Z) (ev : MessageEvent) (st : State) :
  after_messages p (pre ++ [(now, ev)]) st
  = after_message (parse p (ev_data ev)) now (after_messages p pre st).
Proof. unfold after_messages. rewrite fold_left_app. reflexivity. Qed.

(** C1. For every sequence of N message events delivered to an attached
    bridge that has not been torn down, each event is processed as the
    contract says: the entry {parsed data, now} is appended to [messages],
    [data] becomes the parser's transform of the payload (the payload itself
    when there is no parser), [error] is cleared, [updatedAt] becomes the
    time of the event, and the [onMessage] callback, when given, is called
    with the parsed data after the render of the new state.  So [messages]
    grows by the N entries in delivery order (it has length N from a fresh
    attach), and [data] is the transform of the N-th payload: the result of
    the supplied parser applied to the payload, in the entries and in
    [data], and in the argument of the callback. *)
Theorem messages_processed_in_delivery_order
  (c : Instance) (evs : list (Z * MessageEvent)) :
  mounted c = true -> queue c = [] ->
  state (fst (run (messages_in evs) c)) = after_messages (props c) evs (state c)
  /\ snd (run (messages_in evs) c) = message_trace (props c) (state c) evs
  /\ messages (state (fst (run (messages_in evs) c)))
     = messages (state c) ++ map (entry (props c)) evs
  /\ (messages (state c) = [] ->
      List.length (messages (state (fst (run (messages_in evs) c)))) = List.length evs)
  /\ (forall pre now ev, evs = pre ++ [(now, ev)] ->
      data (state (fst (run (messages_in evs) c))) = parse (props c) (ev_data ev)
      /\ error (state (fst (run (messages_in evs) c))) = VUndefined
      /\ updatedAt (state (fst (run (messages_in evs) c))) = VDate now)
  /\ (Props.parser (props c) = None -> forall raw, parse (props c) raw = raw)
  /\ (forall f, Props.parser (props c) = Some f ->
      forall raw, parse (props c) raw = f raw)
  /\ (forall f, Props.parser (props c) = Some f ->
      map m_data (messages (state (fst (run (messages_in evs) c))))
      = map m_data (messages (state c)) ++ map (fun ev => f (ev_data (snd ev))) evs)
  /\ errors (state (fst (run (messages_in evs) c))) = errors (state c)
  /\ lastPostAt (state (fst (run (messages_in evs) c))) = lastPostAt (state c)
  /\ mounted (fst (run (messages_in evs) c)) = true
  /\ queue (fst (run (messages_in evs) c)) = [].
Proof.
  intros Hm Hq. rewrite run_messages by assumption. simpl fst. simpl snd.
  assert (Hst : state (set_state (after_messages (props c) evs (state c)) c)
                = after_messages (props c) evs (state c)) by reflexivity.
  rewrite Hst.
  split; [reflexivity|]. split; [reflexivity|].
  split; [apply after_messages_messages|].
  split.
  { intros Hnil. rewrite after_messages_messages, Hnil. simpl.
    apply length_map. }
  split.
  { intros pre now ev ->. rewrite after_messages_last. simpl. auto. }
  split.
  { intros Hp raw. unfold parse. rewrite Hp. reflexivity. }
  split.
  { intros f Hp raw. unfold parse. rewrite Hp. reflexivity. }
  split.
  { intros f Hp. rewrite after_messages_messages, map_app, map_map.
    f_equal. apply map_ext. intros [now ev]. unfold entry, parse.
    rewrite Hp. reflexivity. }
  destruct (after_messages_frame (props c) evs (state c)) as [He Hl].
  repeat split; assumption.
Qed.

Lemma messages_processed_witness :
  map m_data
    (messages (state (fst (run (messages_in foo_bar_baz)
                             (attached browser transforming_props)))))
  = [VObj [("parsed", VStr "foo")]; VObj [("parsed", VStr "bar")];
     VObj [("parsed", VStr "baz")]]
  /\ data (state (fst (run (messages_in foo_bar_baz)
                        (attached browser transforming_props))))
     = VObj [("parsed", VStr "baz")]
  /\ List.length (messages (state (fst (run (messages_in foo_bar_baz)
                                         (attached browser transforming_props)))))
     = 3
  /\ filter is_notification
       (snd (run (messages_in foo_bar_baz) (attached browser transforming_props)))
     = [CallOnMessage (VObj [("parsed", VStr "foo")]);
        CallOnMessage (VObj [("parsed", VStr "bar")]);
        CallOnMessage (VObj [("parsed", VStr "baz")])].
Proof.
  destruct (messages_processed_in_delivery_order
              (attached browser transforming_props) foo_bar_baz eq_refl eq_refl)
    as (_ & Htrace & _ & Hlen & Hlast & _ & Hparse & Hmsgs & _).
  split; [rewrite (Hmsgs wrap_parser eq_refl); reflexivity|].
  split.
  { rewrite (proj1 (Hlast [(1%Z, mkMessageEvent (VStr "foo"));
                           (2%Z, mkMessageEvent (VStr "bar"))]
                      3%Z (mkMessageEvent (VStr "baz")) eq_refl)).
    rewrite (Hparse wrap_parser eq_refl). reflexivity. }
  split; [apply Hlen; reflexivity|].
  rewrite Htrace. reflexivity.
Defined.

(** ** Errors *)

(** C3. For every error event delivered to an attached bridge that has not
    been torn down: the entry {error, now} is appended to [errors], [error]
    becomes the error, [updatedAt] becomes now, the [onError] callback, when
    given, is called with the error after the render of the new state, and
    [data] and [messages] (and [lastPostAt]) are left as they were. *)
Theorem error_recorded_and_data_kept
  (c : Instance) (now : Z) (ev : ErrorEvent) :
  mounted c = true -> queue c = [] ->
  raised (step (Failure now ev) c) = None
  /\ errors (state (instance_of (step (Failure now ev) c)))
     = errors (state c) ++ [mkErrorEntry (ev_error ev) (VDate now)]
  /\ error (state (instance_of (step (Failure now ev) c))) = ev_error ev
  /\ updatedAt (state (instance_of (step (Failure now ev) c))) = VDate now
  /\ data (state (instance_of (step (Failure now ev) c))) = data (state c)
  /\ messages (state (instance_of (step (Failure now ev) c))) = messages (state c)
  /\ lastPostAt (state (instance_of (step (Failure now ev) c))) = lastPostAt (state c)
  /\ effects_of (step (Failure now ev) c)
     = Rendered (state (instance_of (step (Failure now ev) c)))
         :: (if Props.onError (props c) then [CallOnError (ev_error ev)] else [])
  /\ mounted (instance_of (step (Failure now ev) c)) = true
  /\ queue (instance_of (step (Failure now ev) c)) = [].
Proof.
  intros Hm Hq. rewrite step_failure by assumption. simpl.
  repeat split; assumption.
Qed.

Lemma error_recorded_witness :
  data (state (instance_of
     (step (Failure 4%Z (mkErrorEvent (VStr "boom")))
        (fst (run (messages_in foo_bar_baz) (attached browser url_props))))))
  = VStr "baz"
  /\ error (state (instance_of
     (step (Failure 4%Z (mkErrorEvent (VStr "boom")))
        (fst (run (messages_in foo_bar_baz) (attached browser url_props))))))
  = VStr "boom".
Proof.
  destruct (error_recorded_and_data_kept
              (fst (run (messages_in foo_bar_baz) (attached browser url_props)))
              4%Z (mkErrorEvent (VStr "boom")) eq_refl eq_refl)
    as (_ & _ & He & _ & Hd & _).
  split; [rewrite Hd; reflexivity | exact He].
Defined.

(** ** Teardown *)

Lemma componentWillUnmount_instance (c : Instance) :
  instance_of (componentWillUnmount c) = set_mounted false c.
Proof.
  unfold componentWillUnmount.
  destruct (Props.worker (props c)); [reflexivity|].
  destruct (worker c) as [w|]; [|reflexivity].
  destruct (has_terminate w); reflexivity.
Qed.

Lemma step_event_unmounted (i : Input) (c : Instance) :
  is_event i = true -> mounted c = false -> queue c = [] ->
  step i c = Returned c [].
Proof.
  intros Hi Hm Hq.
  destruct i as [now ev|now ev|now d|]; try discriminate;
    unfold step, onMessage, onError; rewrite Hm; simpl;
    rewrite flush_empty by assumption; reflexivity.
Qed.

Lemma deliver_event_unmounted (i : Input) (c : Instance) :
  is_event i = true -> mounted c = false -> deliver i c = Returned c [].
Proof.
  intros Hi Hm. unfold deliver. rewrite Hm.
  destruct i as [now ev|now ev|now d|]; try discriminate;
    unfold handle, onMessage, onError; rewrite Hm; simpl;
    rewrite set_queue_same; reflexivity.
Qed.

Lemma run_events_unmounted (ins : list Input) (c : Instance) :
  forallb is_event ins = true -> mounted c = false -> queue c = [] ->
  run ins c = (c, []).
Proof.
  induction ins as [|i rest IH]; intros Hall Hm Hq; [reflexivity|].
  simpl in Hall. apply andb_prop in Hall. destruct Hall as [Hi Hrest].
  simpl. rewrite deliver_event_unmounted by assumption. simpl.
  rewrite IH by assumption. reflexivity.
Qed.

(** C5. After teardown every message or error event is ignored: the handler
    returns at once, raising nothing, with the instance as it was (state and
    update queue untouched, so no callback will run) and without any effect;
    so does any sequence of late events. *)
Theorem late_events_are_ignored
  (c : Instance) (now : Z) (m : MessageEvent) (e : ErrorEvent)
  (late : list Input) :
  queue c = [] -> forallb is_event late = true ->
  mounted (instance_of (componentWillUnmount c)) = false
  /\ onMessage now m (instance_of (componentWillUnmount c))
     = Returned (instance_of (componentWillUnmount c)) []
  /\ onError now e (instance_of (componentWillUnmount c))
     = Returned (instance_of (componentWillUnmount c)) []
  /\ step (Message now m) (instance_of (componentWillUnmount c))
     = Returned (instance_of (componentWillUnmount c)) []
  /\ step (Failure now e) (instance_of (componentWillUnmount c))
     = Returned (instance_of (componentWillUnmount c)) []
  /\ run late (instance_of (componentWillUnmount c))
     = (instance_of (componentWillUnmount c), []).
Proof.
  intros Hq Hlate. rewrite componentWillUnmount_instance.
  assert (Hm : mounted (set_mounted false c) = false) by reflexivity.
  assert (Hq' : queue (set_mounted false c) = []) by exact Hq.
  split; [exact Hm|].
  split; [unfold onMessage; rewrite Hm; reflexivity|].
  split; [unfold onError; rewrite Hm; reflexivity|].
  split; [apply step_event_unmounted; auto|].
  split; [apply step_event_unmounted; auto|].
  apply run_events_unmounted; assumption.
Qed.

Lemma late_events_witness :
  state (fst (run [Message 8%Z (mkMessageEvent (VStr "late"));
                   Failure 9%Z (mkErrorEvent (VStr "late"))]
                (instance_of (componentWillUnmount (attached browser url_props)))))
  = initial_state
  /\ snd (run [Message 8%Z (mkMessageEvent (VStr "late"));
               Failure 9%Z (mkErrorEvent (VStr "late"))]
            (instance_of (componentWillUnmount (attached browser url_props))))
     = [].
Proof.
  destruct (late_events_are_ignored (attached browser url_props) 8%Z
              (mkMessageEvent (VStr "late")) (mkErrorEvent (VStr "late"))
              [Message 8%Z (mkMessageEvent (VStr "late"));
               Failure 9%Z (mkErrorEvent (VStr "late"))]
              eq_refl eq_refl)
    as (_ & _ & _ & _ & _ & Hrun).
  rewrite Hrun. split; reflexivity.
Defined.

(** ** Pending *)




(** ** Sending *)


Lemma postMessage_gated (now : Z) (x : value) (c : Instance) (w : Worker) :
  worker c = Some w -> has_postMessage w = true ->
  truthy (w_state w) = true -> is_string "activated" (w_state w) = false ->
  postMessage now x c = Returned c [].
Proof.
  intros H Hp Ht Ha. unfold postMessage. rewrite H, Hp, Ht, Ha. reflexivity.
Qed.

Lemma postMessage_enqueues (now : Z) (x : value) (c : Instance) (w : Worker) :
  worker c = Some w -> accepts_dispatch w = true ->
  postMessage now x c
  = Returned
      (setState
         (ObjectPayload
            {| set_lastPostAt := Some (VDate now);
               set_messages := None; set_errors := None; set_data := None;
               set_error := None; set_updatedAt := None |})
         (Dispatch (serialize (props c)) x) c)
      [].
Proof.
  intros H Ha. unfold accepts_dispatch in Ha.
  apply andb_prop in Ha. destruct Ha as [Hp Hg].
  unfold postMessage. rewrite H, Hp.
  destruct (truthy (w_state w) && negb (is_string "activated" (w_state w)));
    [discriminate | reflexivity].
Qed.

Lemma step_send (now : Z) (x : value) (c : Instance) (w : Worker) :
  worker c = Some w -> accepts_dispatch w = true -> queue c = [] ->
  step (Send now x) c
  = Returned (set_state (after_send now (state c)) c)
      [Rendered (after_send now (state c));
       CallPostMessage (Some w) (serialize (props c) x) (transfer_of c)].
Proof.
  intros H Ha Hq. unfold step.
  rewrite (postMessage_enqueues now x c w H Ha). simpl.
  rewrite flush_one by assumption. simpl.
  unfold transfer_of. rewrite H.
  destruct (messageChannel c); reflexivity.
Qed.

(** Nothing after the mount changes the props, the handle or the channel,
    and a step leaves no update unprocessed. *)
Lemma step_wiring (i : Input) (c : Instance) :
  queue c = [] ->
  props (instance_of (step i c)) = props c
  /\ worker (instance_of (step i c)) = worker c
  /\ messageChannel (instance_of (step i c)) = messageChannel c
  /\ queue (instance_of (step i c)) = [].
Proof.
  intros Hq. destruct c as [pr st w mc m q]. simpl in Hq. subst q.
  destruct i as [now ev|now ev|now d|]; unfold step.
  - unfold onMessage. destruct m; simpl; auto.
  - unfold onError. destruct m; simpl; auto.
  - unfold postMessage. simpl. destruct w as [w|]; simpl; auto.
    destruct (has_postMessage w); simpl; auto.
    destruct (truthy (w_state w) && negb (is_string "activated" (w_state w)));
      simpl; auto.
  - unfold componentWillUnmount. simpl.
    destruct (Props.worker pr); simpl; auto.
    destruct w as [w|]; simpl; auto.
    destruct (has_terminate w); simpl; auto.
Qed.

Lemma deliver_wiring (i : Input) (c : Instance) :
  queue c = [] ->
  props (instance_of (deliver i c)) = props c
  /\ worker (instance_of (deliver i c)) = worker c
  /\ messageChannel (instance_of (deliver i c)) = messageChannel c
  /\ queue (instance_of (deliver i c)) = [].
Proof.
  intros Hq. destruct (mounted c) eqn:Hm.
  - rewrite deliver_mounted by assumption. apply step_wiring. assumption.
  - unfold deliver. rewrite Hm.
    destruct c as [pr st w mc m q]. simpl in Hq, Hm. subst q m.
    destruct i as [now ev|now ev|now d|]; unfold handle.
    + unfold onMessage. simpl. auto.
    + unfold onError. simpl. auto.
    + unfold postMessage. simpl. destruct w as [w|]; simpl; auto.
      destruct (has_postMessage w); simpl; auto.
      destruct (truthy (w_state w) && negb (is_string "activated" (w_state w)));
        simpl; auto.
    + unfold componentWillUnmount. simpl.
      destruct (Props.worker pr); simpl; auto.
      destruct w as [w|]; simpl; auto.
      destruct (has_terminate w); simpl; auto.
Qed.

Lemma run_wiring (ins : list Input) :
  forall c : Instance,
    queue c = [] ->
    props (fst (run ins c)) = props c
    /\ worker (fst (run ins c)) = worker c
    /\ messageChannel (fst (run ins c)) = messageChannel c
    /\ queue (fst (run ins c)) = [].
Proof.
  induction ins as [|i rest IH]; intros c Hq; [simpl; auto|].
  simpl. destruct (deliver_wiring i c Hq) as (Hp & Hw & Hc & Hq').
  specialize (IH (instance_of (deliver i c)) Hq').
  destruct (run rest (instance_of (deliver i c))) as [c' fx]. simpl in *.
  destruct IH as (IHp & IHw & IHc & IHq).
  rewrite IHp, IHw, IHc, Hp, Hw, Hc. auto.
Qed.



(** C9 (amended). While the attached handle has a [postMessage] and a
    truthy [state] that is not ["activated"], [send] returns silently:
    nothing is raised, the instance is as it was (no [setState], so
    [lastPostAt] is not updated and no callback is queued) and nothing is
    dispatched to the handle. *)
Theorem send_to_inactive_handle_is_silent
  (c : Instance) (w : Worker) (now : Z) (x : value) :
  worker c = Some w -> has_postMessage w = true ->
  truthy (w_state w) = true -> is_string "activated" (w_state w) = false ->
  queue c = [] ->
  postMessage now x c = Returned c []
  /\ step (Send now x) c = Returned c []
  /\ raised (step (Send now x) c) = None
  /\ filter is_dispatch (effects_of (step (Send now x) c)) = []
  /\ lastPostAt (state (instance_of (step (Send now x) c))) = lastPostAt (state c).
Proof.
  intros Hw Hp Ht Ha Hq.
  pose proof (postMessage_gated now x c w Hw Hp Ht Ha) as H.
  assert (Hs : step (Send now x) c = Returned c []).
  { unfold step. rewrite H. simpl. rewrite flush_empty by assumption. reflexivity. }
  rewrite Hs. repeat split; auto.
Qed.

Lemma send_to_inactive_handle_witness :
  step (Send 5%Z (VStr "hello"))
    (attached browser (worker_props (service_worker (VStr "redundant"))))
  = Returned (attached browser (worker_props (service_worker (VStr "redundant")))) [].
Proof.
  apply (send_to_inactive_handle_is_silent
           (attached browser (worker_props (service_worker (VStr "redundant"))))
           (service_worker (VStr "redundant")) 5%Z (VStr "hello"));
    reflexivity.
Defined.

(** C9, as stated, fails on a handle whose [state] is there but falsy (the
    empty string): the guard reads it as no state, and [send] updates
    [lastPostAt] and dispatches.  It also fails on a handle with a [state]
    and no [postMessage]: [send] raises. *)
Lemma send_with_falsy_state_or_no_postMessage :
  step (Send 5%Z (VStr "hello")) (attached browser (worker_props (stateful_worker (VStr ""))))
  = Returned
      (set_state (after_send 5%Z initial_state)
         (attached browser (worker_props (stateful_worker (VStr "")))))
      [Rendered (after_send 5%Z initial_state);
       CallPostMessage (Some (stateful_worker (VStr ""))) (VStr "hello") None]
  /\ w_state mute_worker = VStr "installing"
  /\ step (Send 5%Z (VStr "hello")) (attached browser (worker_props mute_worker))
     = Thrown (JsError "Worker not initialized")
         (attached browser (worker_props mute_worker)) [].
Proof. repeat split; reflexivity. Qed.

(** C10 (amended). Teardown adds no guard to [send]: [postMessage]
    never reads [this.mounted], so a call after teardown raises or returns
    as the same call before it, and requests the same update.  But the
    update is requested from a component React has unmounted, and React
    ignores it: the state is left as it was ([lastPostAt] is not set),
    nothing is rendered, and the callback of the update, which is where the
    handle's [postMessage] is called, never runs.  So after teardown [send]
    has no effect at all, apart from the exception it raises without a
    handle; before teardown the same call sets [lastPostAt] and dispatches.
    The two event handlers return at once on the teardown flag. *)
Theorem send_after_teardown_is_dropped (c : Instance) (now : Z) (x : value) :
  postMessage now x (instance_of (componentWillUnmount c))
  = on_instance (set_mounted false) (postMessage now x c)
  /\ raised (deliver (Send now x) (instance_of (componentWillUnmount c)))
     = raised (postMessage now x c)
  /\ instance_of (deliver (Send now x) (instance_of (componentWillUnmount c)))
     = instance_of (componentWillUnmount c)
  /\ effects_of (deliver (Send now x) (instance_of (componentWillUnmount c))) = []
  /\ lastPostAt
       (state (instance_of
          (deliver (Send now x) (instance_of (componentWillUnmount c)))))
     = lastPostAt (state c)
  /\ (queue c = [] ->
      state (fst (run [Unmount; Send now x] c)) = state c
      /\ mounted (fst (run [Unmount; Send now x] c)) = false
      /\ filter is_dispatch (snd (run [Unmount; Send now x] c)) = []
      /\ snd (run [Unmount; Send now x] c) = effects_of (componentWillUnmount c))
  /\ (forall w, mounted c = true -> worker c = Some w ->
      accepts_dispatch w = true -> queue c = [] ->
      deliver (Send now x) c
      = Returned (set_state (after_send now (state c)) c)
          [Rendered (after_send now (state c));
           CallPostMessage (Some w) (serialize (props c) x) (transfer_of c)])
  /\ (forall m, onMessage now m (instance_of (componentWillUnmount c))
                = Returned (instance_of (componentWillUnmount c)) [])
  /\ (forall e, onError now e (instance_of (componentWillUnmount c))
                = Returned (instance_of (componentWillUnmount c)) []).
Proof.
  rewrite componentWillUnmount_instance.
  assert (Hpost : postMessage now x (set_mounted false c)
                  = on_instance (set_mounted false) (postMessage now x c)).
  { unfold postMessage. simpl.
    destruct (worker c) as [w|]; [|reflexivity].
    destruct (has_postMessage w); [|reflexivity]. simpl.
    destruct (truthy (w_state w) && negb (is_string "activated" (w_state w)));
      reflexivity. }
  assert (Hdrop : deliver (Send now x) (set_mounted false c)
                  = match raised (postMessage now x c) with
                    | None => Returned (set_mounted false c) []
                    | Some err => Thrown err (set_mounted false c) []
                    end).
  { unfold deliver, handle. simpl mounted. cbv iota.
    destruct c as [pr st w mc mt q]. unfold postMessage. simpl.
    destruct w as [w|]; [|reflexivity].
    destruct (has_postMessage w); [|reflexivity]. simpl.
    destruct (truthy (w_state w) && negb (is_string "activated" (w_state w)));
      reflexivity. }
  split; [exact Hpost|].
  split; [rewrite Hdrop; destruct (raised (postMessage now x c)); reflexivity|].
  split; [rewrite Hdrop; destruct (raised (postMessage now x c)); reflexivity|].
  split; [rewrite Hdrop; destruct (raised (postMessage now x c)); reflexivity|].
  split; [rewrite Hdrop; destruct (raised (postMessage now x c)); reflexivity|].
  split.
  { intros Hq.
    assert (Hun : instance_of (deliver Unmount c) = set_mounted false c
                  /\ effects_of (deliver Unmount c)
                     = effects_of (componentWillUnmount c)).
    { unfold deliver, step, handle, then_flush, componentWillUnmount.
      destruct c as [pr st w mc mt q]. simpl in Hq. subst q. simpl.
      destruct mt; destruct (Props.worker pr); simpl;
        try (split; [reflexivity | try rewrite app_nil_r; reflexivity]);
        destruct w as [w|]; simpl;
        try (split; reflexivity);
        destruct (has_terminate w); simpl; split; reflexivity. }
    destruct Hun as [Hi He].
    simpl run. rewrite Hi, He, Hdrop.
    destruct (raised (postMessage now x c)); simpl; rewrite app_nil_r;
      (split; [reflexivity|]); (split; [reflexivity|]);
      (split; [|reflexivity]);
      unfold componentWillUnmount;
      destruct (Props.worker (props c)); try reflexivity;
      destruct (worker c) as [w|]; try reflexivity;
      destruct (has_terminate w); reflexivity. }
  split.
  { intros w Hm Hw Ha Hq. rewrite deliver_mounted by assumption.
    apply step_send; assumption. }
  split; intros; reflexivity.
Qed.

(** A send before the unmount and the same send after it, on a bridge over a
    Worker of the application: the first sets [lastPostAt] and reaches the
    Worker, the second does neither. *)
Lemma send_after_unmount_reaches_nothing :
  accepts_dispatch custom_worker = true
  /\ lastPostAt
       (state (fst (run [Send 5%Z (VStr "hello")]
                      (attached browser (worker_props custom_worker)))))
     = VDate 5%Z
  /\ filter is_dispatch
       (snd (run [Send 5%Z (VStr "hello")]
               (attached browser (worker_props custom_worker))))
     = [CallPostMessage (Some custom_worker) (VStr "hello") None]
  /\ worker (fst (run [Unmount] (attached browser (worker_props custom_worker))))
     = Some custom_worker
  /\ lastPostAt
       (state (fst (run [Unmount; Send 5%Z (VStr "hello")]
                      (attached browser (worker_props custom_worker)))))
     = VUndefined
  /\ snd (run [Unmount; Send 5%Z (VStr "hello")]
            (attached browser (worker_props custom_worker)))
     = [].
Proof. repeat split; reflexivity. Qed.

(** ** Wiring the handle *)


Lemma componentDidMount_wires (window : Window) (p : Props.t)
  (w : Worker) (fx0 : list Effect) :
  resolve_worker window p = Ok (w, fx0) ->
  componentDidMount window (constructor p)
  = if has_onmessage w then
      Returned (set_mounted true (set_worker w (constructor p)))
        (fx0 ++ [Bind (OnWorker w) "onmessage" HOnMessage;
                 Bind (OnWorker w) "onerror" HOnError])
    else
      Returned
        (set_mounted true
           (set_messageChannel (new_MessageChannel window)
              (set_worker w (constructor p))))
        (fx0 ++ [NewMessageChannel;
                 Bind (OnPort (port1 (new_MessageChannel window))) "onmessage" HOnMessage;
                 Bind (OnPort (port1 (new_MessageChannel window))) "onmessageerror" HOnError]).
Proof.
  intros H. unfold componentDidMount. simpl props. rewrite H.
  destruct (has_onmessage w); reflexivity.
Qed.

Lemma attached_wiring (window : Window) (p : Props.t)
  (w : Worker) (fx0 : list Effect) :
  resolve_worker window p = Ok (w, fx0) ->
  props (attached window p) = p
  /\ worker (attached window p) = Some w
  /\ mounted (attached window p) = true
  /\ queue (attached window p) = []
  /\ messageChannel (attached window p)
     = if has_onmessage w then None else Some (new_MessageChannel window).
Proof.
  intros H. unfold attached. rewrite (componentDidMount_wires window p w fx0 H).
  destruct (has_onmessage w); simpl; auto.
Qed.

(** Whatever [send] dispatches, it dispatches to the handle, serialized,
    with the remote port of the channel when there is one. *)
Lemma send_dispatch_shape (now : Z) (x : value) (c : Instance) (w : Worker)
  (e : Effect) :
  worker c = Some w -> queue c = [] ->
  In e (effects_of (step (Send now x) c)) -> is_dispatch e = true ->
  e = CallPostMessage (Some w) (serialize (props c) x) (transfer_of c).
Proof.
  intros Hw Hq Hin He.
  destruct (accepts_dispatch w) eqn:Ha.
  - rewrite (step_send now x c w Hw Ha Hq) in Hin. simpl in Hin.
    destruct Hin as [<-|[<-|[]]]; [discriminate | reflexivity].
  - exfalso. revert Hin. unfold step, postMessage. rewrite Hw.
    unfold accepts_dispatch in Ha.
    destruct (has_postMessage w); simpl in *; [|tauto].
    rewrite negb_false_iff in Ha. rewrite Ha. simpl.
    rewrite flush_empty by assumption. simpl. tauto.
Qed.



(** ** Who terminates the handle *)

(** Only [url]: the bridge makes the Worker and terminates it on unmount. *)
Lemma unmount_terminates_created_worker (window : Window) (p : Props.t) :
  truthy (Props.url p) = true -> Props.worker p = None ->
  has_terminate (new_Worker window (Props.url p) (Props.options p)) = true ->
  worker (attached window p)
  = Some (new_Worker window (Props.url p) (Props.options p))
  /\ componentWillUnmount (attached window p)
     = Returned (set_mounted false (attached window p))
         [CallTerminate (new_Worker window (Props.url p) (Props.options p))].
Proof.
  intros Hu Hw Ht. unfold attached, componentDidMount, resolve_worker.
  simpl props. rewrite Hu.
  destruct (has_onmessage (new_Worker window (Props.url p) (Props.options p)));
    simpl; (split; [reflexivity|]);
    unfold componentWillUnmount; simpl; rewrite Hw, Ht; reflexivity.
Qed.

(** Only [worker]: the bridge uses it (or its controller) and leaves it
    alone on unmount. *)
Lemma unmount_keeps_supplied_worker (window : Window) (p : Props.t) (w0 : Worker) :
  truthy (Props.url p) = false -> Props.worker p = Some w0 ->
  worker (attached window p)
  = Some (match controller w0 with Some sw => sw | None => w0 end)
  /\ componentWillUnmount (attached window p)
     = Returned (set_mounted false (attached window p)) [].
Proof.
  intros Hu Hw. unfold attached, componentDidMount, resolve_worker.
  simpl props. rewrite Hu, Hw.
  destruct (has_onmessage (match controller w0 with Some sw => sw | None => w0 end));
    simpl; (split; [reflexivity|]);
    unfold componentWillUnmount; simpl; rewrite Hw; reflexivity.
Qed.

(** C4, where the code departs from it.  With both [url] and [worker] given,
    the mount makes a Worker from [url] (the given one is not used), and the
    unmount, which looks at the [worker] prop, does not terminate it: the
    handle the bridge constructed itself is left running. *)
Theorem unmount_leaves_worker_made_from_url
  (window : Window) (p : Props.t) (w0 : Worker) :
  truthy (Props.url p) = true -> Props.worker p = Some w0 ->
  raised (componentDidMount window (constructor p)) = None
  /\ In (NewWorker (Props.url p) (Props.options p))
       (effects_of (componentDidMount window (constructor p)))
  /\ worker (attached window p)
     = Some (new_Worker window (Props.url p) (Props.options p))
  /\ componentWillUnmount (attached window p)
     = Returned (set_mounted false (attached window p)) []
  /\ filter is_terminate (effects_of (componentWillUnmount (attached window p))) = [].
Proof.
  intros Hu Hw. unfold attached, componentDidMount, resolve_worker.
  simpl props. rewrite Hu.
  destruct (has_onmessage (new_Worker window (Props.url p) (Props.options p)));
    simpl; (split; [reflexivity|]); (split; [left; reflexivity|]);
    (split; [reflexivity|]);
    unfold componentWillUnmount; simpl; rewrite Hw; split; reflexivity.
Qed.

Lemma unmount_leaves_worker_witness :
  worker (attached browser (both_props custom_worker)) = Some (dedicated_worker 0)
  /\ componentWillUnmount (attached browser (both_props custom_worker))
     = Returned (set_mounted false (attached browser (both_props custom_worker))) [].
Proof.
  destruct (unmount_leaves_worker_made_from_url browser (both_props custom_worker)
              custom_worker eq_refl eq_refl)
    as (_ & _ & Hw & Hu & _).
  split; [exact Hw | exact Hu].
Defined.

(** ** Helpers outside a bridge *)

(** C8 (amended). With no provider above it a helper reads the default of
    the context.  In the current revision the context has no default: the
    helper reads [undefined] and raises a TypeError when it takes [data] or
    [error] of it.  In the earlier revision the default is the initial
    state: no helper raises, Pending renders its content, Data and Error
    render nothing. *)
Theorem helpers_outside_a_bridge
  (pending : Children State) (persist : value)
  (children : Children (value * State)) :
  defaultValue context = None
  /\ Consumer context [] (WebWorker.Pending pending persist)
     = Throw (JsTypeError "Cannot read property 'data' of undefined")
  /\ Consumer context [] (WebWorker.Data children)
     = Throw (JsTypeError "Cannot read property 'data' of undefined")
  /\ Consumer context [] (WebWorker.Error children)
     = Throw (JsTypeError "Cannot read property 'error' of undefined")
  /\ defaultValue Rev1.context = Some Rev1.getInitialState
  /\ Consumer Rev1.context [] (WebWorker.Pending pending persist)
     = Ok (WebWorker.content pending Rev1.getInitialState)
  /\ Consumer Rev1.context [] (WebWorker.Data children) = Ok VNull
  /\ Consumer Rev1.context [] (WebWorker.Error children) = Ok VNull.
Proof.
  unfold Consumer, context, Rev1.context, createContext. simpl.
  rewrite andb_false_r.
  repeat split; reflexivity.
Qed.

(** C8, as stated, fails in the current revision: Pending rendered with no
    bridge above it raises. *)
Lemma Pending_outside_a_bridge_raises :
  Consumer context [] (WebWorker.Pending (StaticContent (VStr "pending")) VUndefined)
  = Throw (JsTypeError "Cannot read property 'data' of undefined").
Proof. reflexivity. Qed.

(** ** The history of a mounted bridge *)

(** What a step does to the state of a mounted bridge. *)
Lemma step_state (i : Input) (c : Instance) :
  mounted c = true -> queue c = [] -> is_unmount i = false ->
  mounted (instance_of (step i c)) = true
  /\ messages (state (instance_of (step i c)))
     = messages (state c) ++ message_entries (props c) [i]
  /\ errors (state (instance_of (step i c)))
     = errors (state c) ++ error_entries [i].
Proof.
  intros Hm Hq Hu. destruct i as [now ev|now ev|now d|]; [| | |discriminate].
  - rewrite step_message by assumption. simpl.
    rewrite app_nil_r. auto using app_nil_r.
  - rewrite step_failure by assumption. simpl.
    rewrite !app_nil_r. auto.
  - simpl message_entries. simpl error_entries. rewrite !app_nil_r.
    destruct c as [pr st w mc m q]. simpl in Hm, Hq. subst m q.
    unfold step, postMessage. simpl.
    destruct w as [w|]; simpl; auto.
    destruct (has_postMessage w); simpl; auto.
    destruct (truthy (w_state w) && negb (is_string "activated" (w_state w)));
      simpl; auto.
Qed.

(** X4. [messages] and [errors] only grow, by one entry per event, in the
    order of delivery, whatever else (events of the other kind, sends)
    happens in between. *)
Lemma history_is_append_only (ins : list Input) :
  forall c : Instance,
    mounted c = true -> queue c = [] -> existsb is_unmount ins = false ->
    messages (state (fst (run ins c)))
    = messages (state c) ++ message_entries (props c) ins
    /\ errors (state (fst (run ins c)))
       = errors (state c) ++ error_entries ins.
Proof.
  induction ins as [|i rest IH]; intros c Hm Hq Hu.
  - simpl. rewrite !app_nil_r. auto.
  - simpl in Hu. apply orb_false_elim in Hu. destruct Hu as [Hi Hrest].
    destruct (step_state i c Hm Hq Hi) as (Hm' & Hmsgs & Herrs).
    destruct (step_wiring i c Hq) as (Hp & _ & _ & Hq').
    specialize (IH (instance_of (step i c)) Hm' Hq' Hrest).
    simpl run. rewrite (deliver_mounted i c Hm).
    destruct (run rest (instance_of (step i c))) as [c' fx].
    simpl fst in *. destruct IH as [IHm IHe].
    rewrite IHm, IHe, Hmsgs, Herrs, Hp.
    simpl message_entries. simpl error_entries.
    rewrite !app_nil_r, <- !app_assoc. auto.
Qed.

(** ** Batches *)

Lemma flush_state (c : Instance) : state (fst (flush c)) = pending_state c.
Proof.
  unfold flush, pending_state. destruct (queue c); reflexivity.
Qed.

Lemma onMessage_pending (now : Z) (ev : MessageEvent) (c : Instance) :
  mounted c = true ->
  props (instance_of (onMessage now ev c)) = props c
  /\ mounted (instance_of (onMessage now ev c)) = true
  /\ pending_state (instance_of (onMessage now ev c))
     = after_message (parse (props c) (ev_data ev)) now (pending_state c).
Proof.
  intros Hm. unfold onMessage. rewrite Hm. simpl.
  repeat split; [assumption|].
  unfold pending_state. simpl. rewrite map_app, fold_left_app. reflexivity.
Qed.

Lemma enqueue_messages_pending (evs : list (Z * MessageEvent)) :
  forall c : Instance,
    mounted c = true ->
    pending_state (enqueue_messages evs c)
    = after_messages (props c) evs (pending_state c).
Proof.
  induction evs as [|[now ev] rest IH]; intros c Hm; [reflexivity|].
  destruct (onMessage_pending now ev c Hm) as (Hp & Hm' & Hst).
  simpl. rewrite IH by assumption. rewrite Hp, Hst. reflexivity.
Qed.

(** Whether React processes each update on its own or all of them in one
    batch, the messages lead to the same state: the updater reads the state
    it is given, not the one the handler saw. *)
Lemma batched_messages (evs : list (Z * MessageEvent)) (c : Instance) :
  mounted c = true -> queue c = [] ->
  state (fst (flush (enqueue_messages evs c)))
  = state (fst (run (messages_in evs) c)).
Proof.
  intros Hm Hq. rewrite flush_state, enqueue_messages_pending by assumption.
  rewrite run_messages by assumption. simpl.
  unfold pending_state. rewrite Hq. reflexivity.
Qed.

(** ** What the helpers show after an event *)

(** Below a rendered bridge a consumer reads the state of the bridge. *)
Lemma Consumer_below_bridge {A : Type} (ctx : Context) (c : Instance)
  (f : ContextValue -> A) (v : State) (child : value) :
  render c = Provider v child ->
  v = state c /\ Consumer ctx (provided (render c)) f = f (Some (state c)).
Proof.
  unfold render. destruct (Props.children (props c)) as [g|n].
  - intros H. inversion H. subst. auto.
  - destruct (negb (is_undefined n) && negb (is_null n)); [|discriminate].
    intros H. inversion H. subst. auto.
Qed.

Lemma Pending_hides_after_message
  (ctx : Context) (children : Children State) (persist : value)
  (now : Z) (ev : MessageEvent) (c : Instance) :
  mounted c = true -> queue c = [] ->
  is_undefined (parse (props c) (ev_data ev)) = false ->
  Consumer ctx [state (instance_of (step (Message now ev) c))]
    (WebWorker.Pending children persist)
  = Ok VNull.
Proof.
  intros Hm Hq Hd. rewrite step_message by assumption.
  unfold Consumer, WebWorker.Pending. simpl. rewrite Hd. reflexivity.
Qed.

Lemma Pending_after_error
  (ctx : Context) (children : Children State) (persist : value)
  (now : Z) (ev : ErrorEvent) (c : Instance) :
  mounted c = true -> queue c = [] ->
  is_undefined (data (state c)) = true ->
  is_undefined (ev_error ev) = false ->
  Consumer ctx [state (instance_of (step (Failure now ev) c))]
    (WebWorker.Pending children persist)
  = Ok (if truthy persist
        then WebWorker.content children
               (after_error (ev_error ev) now (state c))
        else VNull).
Proof.
  intros Hm Hq Hd He. rewrite step_failure by assumption.
  unfold Consumer, WebWorker.Pending. simpl. rewrite Hd, He.
  destruct (truthy persist); reflexivity.
Qed.

(** Data and Error render their content, given the value, only while the
    value is there. *)
Lemma Data_shows_while_data (ctx : Context) (above : list State)
  (children : Children (value * State)) (st : State) :
  Consumer ctx (st :: above) (WebWorker.Data children)
  = Ok (if is_undefined (data st) then VNull
        else WebWorker.content children (data st, st)).
Proof.
  unfold Consumer, WebWorker.Data. destruct (is_undefined (data st)); reflexivity.
Qed.

Lemma Error_shows_while_error (ctx : Context) (above : list State)
  (children : Children (value * State)) (st : State) :
  Consumer ctx (st :: above) (WebWorker.Error children)
  = Ok (if is_undefined (error st) then VNull
        else WebWorker.content children (error st, st)).
Proof.
  unfold Consumer, WebWorker.Error. destruct (is_undefined (error st)); reflexivity.
Qed.

(** ** Scenarios *)

(** An error, then a message: the error is cleared, the list of errors is
    kept. *)
Example error_then_message :
  let c := fst (run [Failure 1%Z (mkErrorEvent (VStr "foo"));
                     Message 2%Z (mkMessageEvent (VStr "bar"))]
                  (attached browser url_props)) in
  error (state c) = VUndefined
  /\ data (state c) = VStr "bar"
  /\ errors (state c) = [mkErrorEntry (VStr "foo") (VDate 1)]
  /\ messages (state c) = [mkMessageEntry (VStr "bar") (VDate 2)]
  /\ updatedAt (state c) = VDate 2.
Proof. repeat split; reflexivity. Qed.

(** With a parser and a serializer: the state holds what the parser made of
    the payload, the handle receives what the serializer made of it. *)
Example parser_and_serializer :
  run [Message 1%Z (mkMessageEvent (VStr "raw")); Send 2%Z (VStr "out")]
    (attached browser transforming_props)
  = (set_state
       (after_send 2
          (after_message (VObj [("parsed", VStr "raw")]) 1 initial_state))
       (attached browser transforming_props),
     [Rendered (after_message (VObj [("parsed", VStr "raw")]) 1 initial_state);
      CallOnMessage (VObj [("parsed", VStr "raw")]);
      Rendered
        (after_send 2
           (after_message (VObj [("parsed", VStr "raw")]) 1 initial_state));
      CallPostMessage (Some (dedicated_worker 0)) (VArr [VStr "out"]) None]).
Proof. reflexivity. Qed.

(** A ServiceWorkerContainer: the bridge talks to its controller. *)
Example container_resolves_to_controller :
  worker
    (attached browser
       (worker_props
          {| wid := 3; has_onmessage := true; has_postMessage := false;
             has_terminate := false; w_state := VUndefined;
             controller := Some (service_worker (VStr "activated")) |}))
  = Some (service_worker (VStr "activated")).
Proof. reflexivity. Qed.

(** Neither [url] nor [worker]: the mount raises. *)
Example mount_without_url_or_worker :
  componentDidMount browser
    (constructor
       {| Props.url := VUndefined; Props.options := VUndefined;
          Props.worker := None; Props.parser := None; Props.serializer := None;
          Props.onMessage := false; Props.onError := false;
          Props.children := no_children |})
  = Thrown (JsTypeError "Cannot read property 'controller' of undefined")
      (constructor
         {| Props.url := VUndefined; Props.options := VUndefined;
            Props.worker := None; Props.parser := None; Props.serializer := None;
            Props.onMessage := false; Props.onError := false;
            Props.children := no_children |})
      [].
Proof. reflexivity. Qed.

(** ** The earlier revision *)

(** X13. In the earlier revision the bridge makes a Worker exactly when no
    [worker] is given, which is the test of the unmount: it terminates the
    handle if and only if it made it.  Without a [worker] the mount
    constructs a Worker from [url] and [options] and assigns the two
    handlers to its slots; with one it constructs nothing and assigns them
    to the slots of the given handle. *)
Lemma rev1_terminates_what_it_made (window : Window) (p : Props.t) :
  has_terminate (new_Worker window (Props.url p) (Props.options p)) = true ->
  state (Rev1.attached window p) = Rev1.getInitialState
  /\ mounted (Rev1.attached window p) = true
  /\ (Props.worker p = None ->
      worker (Rev1.attached window p)
      = Some (new_Worker window (Props.url p) (Props.options p))
      /\ effects_of (Rev1.componentDidMount window (Rev1.constructor p))
         = [NewWorker (Props.url p) (Props.options p);
            Bind (OnWorker (new_Worker window (Props.url p) (Props.options p)))
              "onmessage" HOnMessage;
            Bind (OnWorker (new_Worker window (Props.url p) (Props.options p)))
              "onerror" HOnError]
      /\ effects_of (componentWillUnmount (Rev1.attached window p))
         = [CallTerminate (new_Worker window (Props.url p) (Props.options p))])
  /\ (forall w, Props.worker p = Some w ->
      worker (Rev1.attached window p) = Some w
      /\ effects_of (Rev1.componentDidMount window (Rev1.constructor p))
         = [Bind (OnWorker w) "onmessage" HOnMessage;
            Bind (OnWorker w) "onerror" HOnError]
      /\ effects_of (componentWillUnmount (Rev1.attached window p)) = []).
Proof.
  intros Ht. unfold Rev1.attached, Rev1.componentDidMount, Rev1.resolve_worker.
  simpl props. destruct (Props.worker p) as [w|] eqn:Hw; simpl.
  - split; [reflexivity|]. split; [reflexivity|].
    split; [discriminate|].
    intros w' E. inversion E. subst w'.
    split; [reflexivity|]. split; [reflexivity|].
    unfold componentWillUnmount. simpl. rewrite Hw. reflexivity.
  - split; [reflexivity|]. split; [reflexivity|].
    split; [|discriminate].
    intros _. split; [reflexivity|]. split; [reflexivity|].
    unfold componentWillUnmount. simpl. rewrite Hw, Ht. reflexivity.
Qed.

(** ** The bridge refines the state machine of the specification *)

Lemma step_refines_spec (i : Input) (c : Instance) :
  mounted c = true -> queue c = [] -> is_unmount i = false ->
  state (instance_of (step i c)) = spec_step (props c) (can_send c) (state c) i
  /\ mounted (instance_of (step i c)) = true.
Proof.
  intros Hm Hq Hu. destruct i as [now ev|now ev|now d|]; [| | |discriminate].
  - rewrite step_message by assumption. auto.
  - rewrite step_failure by assumption. auto.
  - unfold can_send. simpl spec_step.
    destruct (worker c) as [w|] eqn:Hw.
    + destruct (accepts_dispatch w) eqn:Ha.
      * rewrite (step_send now d c w Hw Ha Hq). auto.
      * unfold step, postMessage. rewrite Hw.
        unfold accepts_dispatch in Ha.
        destruct (has_postMessage w); simpl in *; auto.
        rewrite negb_false_iff in Ha. rewrite Ha. simpl.
        rewrite flush_empty by assumption. auto.
    + unfold step, postMessage. rewrite Hw. auto.
Qed.

Lemma run_refines_spec (ins : list Input) :
  forall c : Instance,
    mounted c = true -> queue c = [] -> existsb is_unmount ins = false ->
    state (fst (run ins c))
    = fold_left (spec_step (props c) (can_send c)) ins (state c).
Proof.
  induction ins as [|i rest IH]; intros c Hm Hq Hu; [reflexivity|].
  simpl in Hu. apply orb_false_elim in Hu. destruct Hu as [Hi Hrest].
  destruct (step_refines_spec i c Hm Hq Hi) as (Hst & Hm').
  destruct (step_wiring i c Hq) as (Hp & Hw & _ & Hq').
  specialize (IH (instance_of (step i c)) Hm' Hq' Hrest).
  simpl run. rewrite (deliver_mounted i c Hm).
  destruct (run rest (instance_of (step i c))) as [c' fx].
  simpl fst in *. rewrite IH, Hst, Hp. unfold can_send. rewrite Hw.
  reflexivity.
Qed.

(** * Further properties of the component *)

(** ** The effects of a step *)

Lemma step_effects (i : Input) (c : Instance) :
  queue c = [] ->
  effects_of (step i c)
  = match i with
    | Message now ev =>
        if mounted c then
          Rendered (after_message (parse (props c) (ev_data ev)) now (state c))
            :: notify_message (props c) (parse (props c) (ev_data ev))
        else []
    | Failure now ev =>
        if mounted c then
          Rendered (after_error (ev_error ev) now (state c))
            :: notify_error (props c) (ev_error ev)
        else []
    | Send now x =>
        if can_send c then
          [Rendered (after_send now (state c));
           CallPostMessage (worker c) (serialize (props c) x) (transfer_of c)]
        else []
    | Unmount =>
        match Props.worker (props c), worker c with
        | None, Some w => if has_terminate w then [CallTerminate w] else []
        | _, _ => []
        end
    end.
Proof.
  intros Hq. destruct i as [now ev|now ev|now x|].
  - destruct (mounted c) eqn:Hm.
    + rewrite step_message by assumption. reflexivity.
    + rewrite step_event_unmounted by auto. reflexivity.
  - destruct (mounted c) eqn:Hm.
    + rewrite step_failure by assumption. reflexivity.
    + rewrite step_event_unmounted by auto. reflexivity.
  - unfold can_send. destruct (worker c) as [w|] eqn:Hw.
    + destruct (accepts_dispatch w) eqn:Ha.
      * rewrite (step_send now x c w Hw Ha Hq). reflexivity.
      * unfold step, postMessage. rewrite Hw.
        unfold accepts_dispatch in Ha.
        destruct (has_postMessage w); simpl in *; [|reflexivity].
        rewrite negb_false_iff in Ha. rewrite Ha. simpl.
        rewrite flush_empty by assumption. reflexivity.
    + unfold step, postMessage. rewrite Hw. reflexivity.
  - destruct c as [pr st w mc m q]. simpl in Hq. subst q.
    unfold step, componentWillUnmount. simpl.
    destruct (Props.worker pr); [reflexivity|].
    destruct w as [w|]; [|reflexivity].
    destruct (has_terminate w); reflexivity.
Qed.

Lemma transfer_of_step (i : Input) (c : Instance) :
  queue c = [] ->
  transfer_of (instance_of (step i c)) = transfer_of c
  /\ can_send (instance_of (step i c)) = can_send c.
Proof.
  intros Hq. destruct (step_wiring i c Hq) as (_ & Hw & Hc & _).
  unfold transfer_of, can_send. rewrite Hw, Hc. auto.
Qed.

(** The effects of a call at any time: those of a step while the component
    is mounted; afterwards no event and no send has any. *)
Lemma deliver_effects (i : Input) (c : Instance) :
  queue c = [] ->
  effects_of (deliver i c)
  = match i with
    | Message now ev =>
        if mounted c then
          Rendered (after_message (parse (props c) (ev_data ev)) now (state c))
            :: notify_message (props c) (parse (props c) (ev_data ev))
        else []
    | Failure now ev =>
        if mounted c then
          Rendered (after_error (ev_error ev) now (state c))
            :: notify_error (props c) (ev_error ev)
        else []
    | Send now x =>
        if mounted c && can_send c then
          [Rendered (after_send now (state c));
           CallPostMessage (worker c) (serialize (props c) x) (transfer_of c)]
        else []
    | Unmount =>
        match Props.worker (props c), worker c with
        | None, Some w => if has_terminate w then [CallTerminate w] else []
        | _, _ => []
        end
    end.
Proof.
  intros Hq. destruct (mounted c) eqn:Hm.
  - rewrite deliver_mounted by assumption.
    rewrite (step_effects i c Hq), Hm. reflexivity.
  - unfold deliver. rewrite Hm.
    destruct c as [pr st w mc m q]. simpl in Hq, Hm. subst q m.
    destruct i as [now ev|now ev|now d|]; unfold handle.
    + reflexivity.
    + reflexivity.
    + unfold postMessage. simpl. destruct w as [w|]; simpl; auto.
      destruct (has_postMessage w); simpl; auto.
      destruct (truthy (w_state w) && negb (is_string "activated" (w_state w)));
        reflexivity.
    + unfold componentWillUnmount. simpl.
      destruct (Props.worker pr); simpl; auto.
      destruct w as [w|]; simpl; auto.
      destruct (has_terminate w); reflexivity.
Qed.

Lemma transfer_of_deliver (i : Input) (c : Instance) :
  queue c = [] ->
  transfer_of (instance_of (deliver i c)) = transfer_of c
  /\ can_send (instance_of (deliver i c)) = can_send c.
Proof.
  intros Hq. destruct (deliver_wiring i c Hq) as (_ & Hw & Hc & _).
  unfold transfer_of, can_send. rewrite Hw, Hc. auto.
Qed.

(** Only the unmount clears [mounted]. *)
Lemma mounted_after_deliver (i : Input) (c : Instance) :
  queue c = [] ->
  mounted (instance_of (deliver i c)) = if is_unmount i then false else mounted c.
Proof.
  intros Hq. unfold deliver, step, handle.
  destruct c as [pr st w mc m q]. simpl in Hq. subst q.
  destruct m; destruct i as [now ev|now ev|now d|]; simpl;
    unfold onMessage, onError, postMessage, componentWillUnmount; simpl;
    try reflexivity;
    try (destruct w as [w|]; simpl; [|reflexivity];
         destruct (has_postMessage w); simpl; [|reflexivity];
         destruct (truthy (w_state w) && negb (is_string "activated" (w_state w)));
         reflexivity);
    destruct (Props.worker pr); simpl; try reflexivity;
    destruct w as [w|]; simpl; try reflexivity;
    destruct (has_terminate w); reflexivity.
Qed.

Lemma filter_notify_message (f : Effect -> bool) (p : Props.t) (d : value) :
  f (CallOnMessage d) = false -> filter f (notify_message p d) = [].
Proof.
  intros H. unfold notify_message. destruct (Props.onMessage p); simpl;
    [rewrite H|]; reflexivity.
Qed.

Lemma filter_notify_error (f : Effect -> bool) (p : Props.t) (e : value) :
  f (CallOnError e) = false -> filter f (notify_error p e) = [].
Proof.
  intros H. unfold notify_error. destruct (Props.onError p); simpl;
    [rewrite H|]; reflexivity.
Qed.

(** ** Outbound messages *)

(** X1. While the bridge is mounted, the sends of a sequence reach the
    handle once each, in the order of the calls, serialized, with the remote
    port when there is a channel, whatever messages and errors come in
    between; a send after the unmount reaches nothing.  The handle is the
    same object with the same [state] at every send of the sequence: when it
    does not pass the guards of [postMessage], no send of the sequence
    reaches it. *)
Theorem dispatched_once_per_send (ins : list Input) :
  forall c : Instance,
    queue c = [] ->
    filter is_dispatch (snd (run ins c))
    = if mounted c && can_send c
      then dispatches_of (props c) (worker c) (transfer_of c) (before_unmount ins)
      else [].
Proof.
  induction ins as [|i rest IH]; intros c Hq.
  - simpl. destruct (mounted c && can_send c); reflexivity.
  - destruct (deliver_wiring i c Hq) as (Hp & Hw & _ & Hq').
    destruct (transfer_of_deliver i c Hq) as (Ht & Hs).
    pose proof (mounted_after_deliver i c Hq) as Hm.
    specialize (IH (instance_of (deliver i c)) Hq').
    simpl run. destruct (run rest (instance_of (deliver i c))) as [c' fx].
    simpl snd in *. rewrite filter_app, IH, Hp, Hw, Ht, Hs, Hm.
    rewrite (deliver_effects i c Hq).
    destruct i as [now ev|now ev|now x|]; simpl.
    + destruct (mounted c); simpl;
        [rewrite filter_notify_message by reflexivity|];
        destruct (can_send c); reflexivity.
    + destruct (mounted c); simpl;
        [rewrite filter_notify_error by reflexivity|];
        destruct (can_send c); reflexivity.
    + destruct (mounted c), (can_send c); reflexivity.
    + destruct (Props.worker (props c)) as [pw|], (worker c) as [w|];
        try (destruct (has_terminate w)); simpl;
        destruct (mounted c && can_send c); reflexivity.
Qed.

Lemma dispatched_once_per_send_witness :
  filter is_dispatch
    (snd (run (mixed_inputs ++ [Unmount; Send 5%Z (VStr "late")])
            (attached browser transforming_props)))
  = [CallPostMessage (Some (dedicated_worker 0)) (VArr [VStr "hello"]) None].
Proof.
  exact (dispatched_once_per_send
           (mixed_inputs ++ [Unmount; Send 5%Z (VStr "late")])
           (attached browser transforming_props) eq_refl).
Defined.

(** ** Notifications *)

(** X2. While the bridge is mounted, the callbacks of the application are
    called once per event, in the order of the events, [onMessage] with the
    parsed data and [onError] with the error; a callback that was not given
    is not called, and a send calls neither. *)
Theorem notified_once_per_event (ins : list Input) :
  forall c : Instance,
    mounted c = true -> queue c = [] -> existsb is_unmount ins = false ->
    filter is_notification (snd (run ins c)) = notifications_of (props c) ins.
Proof.
  induction ins as [|i rest IH]; intros c Hm Hq Hu; [reflexivity|].
  simpl in Hu. apply orb_false_elim in Hu. destruct Hu as [Hi Hrest].
  destruct (step_state i c Hm Hq Hi) as (Hm' & _).
  destruct (step_wiring i c Hq) as (Hp & _ & _ & Hq').
  specialize (IH (instance_of (step i c)) Hm' Hq' Hrest).
  simpl run. rewrite (deliver_mounted i c Hm).
  destruct (run rest (instance_of (step i c))) as [c' fx].
  simpl snd in *. rewrite filter_app, IH, Hp.
  rewrite (step_effects i c Hq), Hm.
  destruct i as [now ev|now ev|now x|]; [| | |discriminate]; simpl.
  - f_equal. unfold notify_message. destruct (Props.onMessage (props c)); reflexivity.
  - f_equal. unfold notify_error. destruct (Props.onError (props c)); reflexivity.
  - destruct (can_send c); reflexivity.
Qed.

Lemma notified_once_per_event_witness :
  filter is_notification (snd (run mixed_inputs (attached browser url_props)))
  = [CallOnMessage (VStr "foo"); CallOnError (VStr "boom");
     CallOnMessage (VStr "bar")].
Proof.
  exact (notified_once_per_event mixed_inputs (attached browser url_props)
           eq_refl eq_refl eq_refl).
Defined.

(** ** The handle between mount and unmount *)

(** X3. Between the mount and the unmount the bridge leaves the wiring
    alone: no event and no send constructs a Worker or a channel, assigns a
    handler to a slot, or terminates the handle. *)
Theorem wiring_untouched_until_unmount (ins : list Input) :
  forall c : Instance,
    queue c = [] -> existsb is_unmount ins = false ->
    filter is_wiring (snd (run ins c)) = [].
Proof.
  induction ins as [|i rest IH]; intros c Hq Hu; [reflexivity|].
  simpl in Hu. apply orb_false_elim in Hu. destruct Hu as [Hi Hrest].
  destruct (deliver_wiring i c Hq) as (_ & _ & _ & Hq').
  specialize (IH (instance_of (deliver i c)) Hq' Hrest).
  simpl run. destruct (run rest (instance_of (deliver i c))) as [c' fx].
  simpl snd in *. rewrite filter_app, IH, app_nil_r.
  rewrite (deliver_effects i c Hq).
  destruct i as [now ev|now ev|now x|]; [| | |discriminate].
  - destruct (mounted c); simpl;
      [apply filter_notify_message|]; reflexivity.
  - destruct (mounted c); simpl;
      [apply filter_notify_error|]; reflexivity.
  - destruct (mounted c && can_send c); reflexivity.
Qed.

Lemma wiring_untouched_witness :
  filter is_wiring (snd (run mixed_inputs (attached browser url_props))) = [].
Proof.
  exact (wiring_untouched_until_unmount mixed_inputs
           (attached browser url_props) eq_refl eq_refl).
Defined.

Lemma history_is_append_only_witness :
  map m_data (messages (state (fst (run mixed_inputs (attached browser url_props)))))
  = [VStr "foo"; VStr "bar"]
  /\ map e_error (errors (state (fst (run mixed_inputs (attached browser url_props)))))
     = [VStr "boom"].
Proof.
  destruct (history_is_append_only mixed_inputs (attached browser url_props)
              eq_refl eq_refl eq_refl) as [Hm He].
  rewrite Hm, He. split; reflexivity.
Defined.

(** ** The latest values *)

Lemma spec_fold_fields (p : Props.t) (b : bool) (ins : list Input) :
  forall st : State,
    data (fold_left (spec_step p b) ins st) = last_data p ins (data st)
    /\ error (fold_left (spec_step p b) ins st) = last_error ins (error st)
    /\ updatedAt (fold_left (spec_step p b) ins st)
       = last_event_time ins (updatedAt st)
    /\ lastPostAt (fold_left (spec_step p b) ins st)
       = if b then last_send_time ins (lastPostAt st) else lastPostAt st.
Proof.
  induction ins as [|i rest IH]; intros st.
  - simpl. destruct b; auto.
  - simpl fold_left at 1 2 3 4.
    destruct (IH (spec_step p b st i)) as (Hd & He & Hu & Hl).
    rewrite Hd, He, Hu, Hl.
    unfold last_data, last_error, last_event_time, last_send_time.
    destruct i as [now ev|now ev|now x|]; simpl; destruct b; auto.
Qed.

(** X5. While the bridge is mounted, [data] is the parsed payload of the
    last message (an error in between does not touch it), [error] is the
    last error unless a message came after it, [updatedAt] is the date of
    the last event of either kind (a send does not touch it), and
    [lastPostAt] is the date of the last send when the handle passes the
    guards of [postMessage], and is never set otherwise. *)
Theorem latest_values (ins : list Input) (c : Instance) :
  mounted c = true -> queue c = [] -> existsb is_unmount ins = false ->
  data (state (fst (run ins c))) = last_data (props c) ins (data (state c))
  /\ error (state (fst (run ins c))) = last_error ins (error (state c))
  /\ updatedAt (state (fst (run ins c)))
     = last_event_time ins (updatedAt (state c))
  /\ lastPostAt (state (fst (run ins c)))
     = if can_send c then last_send_time ins (lastPostAt (state c))
       else lastPostAt (state c).
Proof.
  intros Hm Hq Hu. rewrite run_refines_spec by assumption.
  apply spec_fold_fields.
Qed.

Lemma latest_values_witness :
  data (state (fst (run mixed_inputs (attached browser url_props)))) = VStr "bar"
  /\ error (state (fst (run mixed_inputs (attached browser url_props)))) = VUndefined
  /\ updatedAt (state (fst (run mixed_inputs (attached browser url_props)))) = VDate 4
  /\ lastPostAt (state (fst (run mixed_inputs (attached browser url_props)))) = VDate 3.
Proof.
  exact (latest_values mixed_inputs (attached browser url_props)
           eq_refl eq_refl eq_refl).
Defined.

(** ** Batches of calls *)

Lemma handle_pending (i : Input) (c : Instance) :
  mounted c = true -> is_unmount i = false ->
  pending_state (instance_of (handle i c))
  = spec_step (props c) (can_send c) (pending_state c) i
  /\ props (instance_of (handle i c)) = props c
  /\ worker (instance_of (handle i c)) = worker c
  /\ mounted (instance_of (handle i c)) = true.
Proof.
  intros Hm Hu. destruct i as [now ev|now ev|now x|]; [| | |discriminate].
  - unfold handle, onMessage. rewrite Hm. simpl.
    repeat split; auto.
    unfold pending_state. simpl. rewrite map_app, fold_left_app. reflexivity.
  - unfold handle, onError. rewrite Hm. simpl.
    repeat split; auto.
    unfold pending_state. simpl. rewrite map_app, fold_left_app. reflexivity.
  - unfold handle, postMessage, can_send, accepts_dispatch.
    destruct (worker c) as [w|] eqn:Hw; simpl; [|auto].
    destruct (has_postMessage w); simpl; [|auto].
    destruct (truthy (w_state w) && negb (is_string "activated" (w_state w)));
      simpl; [auto|].
    repeat split; auto.
    unfold pending_state. simpl. rewrite map_app, fold_left_app. reflexivity.
Qed.

Lemma enqueue_pending (ins : list Input) :
  forall c : Instance,
    mounted c = true -> existsb is_unmount ins = false ->
    pending_state (enqueue ins c)
    = fold_left (spec_step (props c) (can_send c)) ins (pending_state c).
Proof.
  induction ins as [|i rest IH]; intros c Hm Hu; [reflexivity|].
  simpl in Hu. apply orb_false_elim in Hu. destruct Hu as [Hi Hrest].
  destruct (handle_pending i c Hm Hi) as (Hst & Hp & Hw & Hm').
  simpl. rewrite IH by assumption. rewrite Hst, Hp.
  unfold can_send. rewrite Hw. reflexivity.
Qed.

(** X6. Batching does not change the outcome.  When the methods of a
    sequence of events and sends are called inside one React batch, so that
    the queue is processed once at the end, the state is the one reached
    when each update is processed on its own: the updaters of the two
    handlers read the state they are given, not the one the handler saw,
    and [send] sets only its own key. *)
Theorem batched_calls_reach_the_same_state (ins : list Input) (c : Instance) :
  mounted c = true -> queue c = [] -> existsb is_unmount ins = false ->
  state (fst (flush (enqueue ins c))) = state (fst (run ins c)).
Proof.
  intros Hm Hq Hu.
  rewrite flush_state, enqueue_pending, run_refines_spec by assumption.
  unfold pending_state. rewrite Hq. reflexivity.
Qed.

Lemma batched_calls_witness :
  state (fst (flush (enqueue mixed_inputs (attached browser url_props))))
  = state (fst (run mixed_inputs (attached browser url_props))).
Proof.
  exact (batched_calls_reach_the_same_state mixed_inputs
           (attached browser url_props) eq_refl eq_refl eq_refl).
Defined.

(** ** The three helpers together *)

Lemma truthy_not_null (n : value) : truthy n = true -> n <> VNull.
Proof. intros H E. subst n. discriminate. Qed.

Lemma content_static {A : Type} (n : value) (a : A) :
  truthy n = true -> WebWorker.content (StaticContent n) a = n.
Proof. intros H. unfold WebWorker.content, js_or. rewrite H. reflexivity. Qed.

(** X7. Given visible static content, the three helpers cover every state
    of the bridge: at least one of them shows.  Without [persist], Pending
    shows exactly when neither Data nor Error does; with [persist], exactly
    when Data does not.  Data and Error do not exclude each other. *)
Theorem helpers_cover_every_state
  (ctx : Context) (above : list State) (st : State) (persist np nd ne : value) :
  truthy np = true -> truthy nd = true -> truthy ne = true ->
  (Consumer ctx (st :: above) (WebWorker.Pending (StaticContent np) persist) = Ok np
   <-> Consumer ctx (st :: above) (WebWorker.Data (StaticContent nd)) = Ok VNull
       /\ (truthy persist = true
           \/ Consumer ctx (st :: above) (WebWorker.Error (StaticContent ne)) = Ok VNull))
  /\ (Consumer ctx (st :: above) (WebWorker.Pending (StaticContent np) persist) = Ok np
      \/ Consumer ctx (st :: above) (WebWorker.Data (StaticContent nd)) = Ok nd
      \/ Consumer ctx (st :: above) (WebWorker.Error (StaticContent ne)) = Ok ne)
  /\ (is_undefined (data st) = false -> is_undefined (error st) = false ->
      Consumer ctx (st :: above) (WebWorker.Data (StaticContent nd)) = Ok nd
      /\ Consumer ctx (st :: above) (WebWorker.Error (StaticContent ne)) = Ok ne).
Proof.
  intros Hp Hd He.
  pose proof (truthy_not_null np Hp) as Np.
  pose proof (truthy_not_null nd Hd) as Nd.
  pose proof (truthy_not_null ne He) as Ne.
  unfold Consumer, WebWorker.Pending, WebWorker.Data, WebWorker.Error.
  rewrite !content_static by assumption.
  destruct (is_undefined (data st)), (is_undefined (error st)), (truthy persist);
    simpl; repeat split; intros; try tauto; try discriminate;
    try (exfalso; intuition congruence); auto.
Qed.

Lemma helpers_cover_witness :
  Consumer context [initial_state]
    (WebWorker.Pending (StaticContent (VStr "pending")) VUndefined)
  = Ok (VStr "pending")
  \/ Consumer context [initial_state] (WebWorker.Data (StaticContent (VStr "data")))
     = Ok (VStr "data")
  \/ Consumer context [initial_state] (WebWorker.Error (StaticContent (VStr "error")))
     = Ok (VStr "error").
Proof.
  destruct (helpers_cover_every_state context [] initial_state VUndefined
              (VStr "pending") (VStr "data") (VStr "error")
              eq_refl eq_refl eq_refl) as (_ & H & _).
  exact H.
Defined.

(** X8. The views follow the events.  After a message and then an error
    (both defined), Data still renders with the data of the message and
    Error renders with the error, and Pending is hidden whatever [persist];
    after an error and then a message, Error is hidden again and Data
    renders with the data of the message. *)
Theorem views_follow_the_events
  (ctx : Context) (c : Instance)
  (now1 now2 : Z) (m : MessageEvent) (e : ErrorEvent)
  (pending : Children State) (persist : value)
  (children : Children (value * State)) :
  mounted c = true -> queue c = [] ->
  is_undefined (parse (props c) (ev_data m)) = false ->
  is_undefined (ev_error e) = false ->
  (Consumer ctx [state (fst (run [Message now1 m; Failure now2 e] c))]
     (WebWorker.Data children)
   = Ok (WebWorker.content children
           (parse (props c) (ev_data m),
            state (fst (run [Message now1 m; Failure now2 e] c))))
   /\ Consumer ctx [state (fst (run [Message now1 m; Failure now2 e] c))]
        (WebWorker.Error children)
      = Ok (WebWorker.content children
              (ev_error e, state (fst (run [Message now1 m; Failure now2 e] c))))
   /\ Consumer ctx [state (fst (run [Message now1 m; Failure now2 e] c))]
        (WebWorker.Pending pending persist)
      = Ok VNull)
  /\ (Consumer ctx [state (fst (run [Failure now1 e; Message now2 m] c))]
        (WebWorker.Error children)
      = Ok VNull
      /\ Consumer ctx [state (fst (run [Failure now1 e; Message now2 m] c))]
           (WebWorker.Data children)
         = Ok (WebWorker.content children
                 (parse (props c) (ev_data m),
                  state (fst (run [Failure now1 e; Message now2 m] c))))
      /\ Consumer ctx [state (fst (run [Failure now1 e; Message now2 m] c))]
           (WebWorker.Pending pending persist)
         = Ok VNull).
Proof.
  intros Hm Hq Hd He.
  rewrite !run_refines_spec by auto.
  unfold Consumer, WebWorker.Pending, WebWorker.Data, WebWorker.Error.
  simpl. rewrite Hd, He. simpl. repeat split; reflexivity.
Qed.

Lemma views_follow_witness :
  Consumer context
    [state (fst (run [Message 1%Z (mkMessageEvent (VStr "foo"));
                      Failure 2%Z (mkErrorEvent (VStr "boom"))]
                   (attached browser url_props)))]
    (WebWorker.Data (FunctionContent fst))
  = Ok (VStr "foo").
Proof.
  destruct (views_follow_the_events context (attached browser url_props)
              1%Z 2%Z (mkMessageEvent (VStr "foo")) (mkErrorEvent (VStr "boom"))
              no_children VUndefined (FunctionContent fst)
              eq_refl eq_refl eq_refl eq_refl) as ((H & _) & _).
  exact H.
Defined.

(** X9. An event without a value is recorded but not shown.  An error event
    whose [error] is undefined (a [messageerror] event of a port has none)
    adds an entry to [errors] and sets [updatedAt], but Error stays hidden
    and Pending is not hidden by it, whatever the parser of the bridge; a
    message whose parsed data is undefined adds an entry to [messages] and
    clears [error], but Data stays hidden and Pending shows. *)
Theorem events_without_a_value
  (ctx : Context) (c : Instance) (now : Z) (m : MessageEvent) (e : ErrorEvent)
  (pending : Children State) (persist : value)
  (children : Children (value * State)) :
  mounted c = true -> queue c = [] ->
  (ev_error e = VUndefined ->
   errors (state (instance_of (step (Failure now e) c)))
   = errors (state c) ++ [mkErrorEntry VUndefined (VDate now)]
   /\ updatedAt (state (instance_of (step (Failure now e) c))) = VDate now
   /\ Consumer ctx [state (instance_of (step (Failure now e) c))]
        (WebWorker.Error children)
      = Ok VNull
   /\ (is_undefined (data (state c)) = true ->
       Consumer ctx [state (instance_of (step (Failure now e) c))]
         (WebWorker.Pending pending persist)
       = Ok (WebWorker.content pending (state (instance_of (step (Failure now e) c))))))
  /\ (parse (props c) (ev_data m) = VUndefined ->
      messages (state (instance_of (step (Message now m) c)))
      = messages (state c) ++ [mkMessageEntry VUndefined (VDate now)]
      /\ error (state (instance_of (step (Message now m) c))) = VUndefined
      /\ Consumer ctx [state (instance_of (step (Message now m) c))]
           (WebWorker.Data children)
         = Ok VNull
      /\ Consumer ctx [state (instance_of (step (Message now m) c))]
           (WebWorker.Pending pending persist)
         = Ok (WebWorker.content pending (state (instance_of (step (Message now m) c))))).
Proof.
  intros Hm Hq.
  rewrite step_failure, step_message by assumption.
  unfold Consumer, WebWorker.Pending, WebWorker.Data, WebWorker.Error.
  simpl.
  split.
  - intros He. rewrite He. simpl.
    split; [reflexivity|]. split; [reflexivity|]. split; [reflexivity|].
    intros Hu. rewrite Hu. simpl. rewrite andb_false_r. reflexivity.
  - intros Hd. rewrite Hd. simpl.
    split; [reflexivity|]. split; [reflexivity|]. split; [reflexivity|].
    rewrite andb_false_r. reflexivity.
Qed.

Lemma events_without_a_value_witness :
  Consumer context
    [state (instance_of
       (step (Failure 1%Z (mkErrorEvent VUndefined))
          (attached browser transforming_props)))]
    (WebWorker.Pending (StaticContent (VStr "pending")) VUndefined)
  = Ok (VStr "pending")
  /\ errors
       (state (instance_of
          (step (Failure 1%Z (mkErrorEvent VUndefined))
             (attached browser transforming_props))))
     = [mkErrorEntry VUndefined (VDate 1%Z)]
  /\ Consumer context
       [state (instance_of
          (step (Message 1%Z (mkMessageEvent VUndefined))
             (attached browser (worker_props (service_worker (VStr "activated"))))))]
       (WebWorker.Pending (StaticContent (VStr "pending")) VUndefined)
     = Ok (VStr "pending")
  /\ Consumer context
       [state (instance_of
          (step (Message 1%Z (mkMessageEvent VUndefined))
             (attached browser (worker_props (service_worker (VStr "activated"))))))]
       (WebWorker.Data (FunctionContent fst))
     = Ok VNull.
Proof.
  destruct (events_without_a_value context
              (attached browser transforming_props)
              1%Z (mkMessageEvent (VStr "foo")) (mkErrorEvent VUndefined)
              (StaticContent (VStr "pending")) VUndefined no_children_of_pair
              eq_refl eq_refl) as (He & _).
  destruct (He eq_refl) as (Hentries & _ & _ & Hpending).
  destruct (events_without_a_value context
              (attached browser (worker_props (service_worker (VStr "activated"))))
              1%Z (mkMessageEvent VUndefined) (mkErrorEvent (VStr "boom"))
              (StaticContent (VStr "pending")) VUndefined (FunctionContent fst)
              eq_refl eq_refl) as (_ & Hd).
  destruct (Hd eq_refl) as (_ & _ & Hdata & Hshown).
  split; [exact (Hpending eq_refl)|].
  split; [exact Hentries|].
  split; [exact Hshown|exact Hdata].
Defined.

Lemma rev1_terminates_witness :
  effects_of (componentWillUnmount (Rev1.attached browser url_props))
  = [CallTerminate (dedicated_worker 0)]
  /\ effects_of (Rev1.componentDidMount browser (Rev1.constructor url_props))
     = [NewWorker (VStr "/worker.js") VUndefined;
        Bind (OnWorker (dedicated_worker 0)) "onmessage" HOnMessage;
        Bind (OnWorker (dedicated_worker 0)) "onerror" HOnError]
  /\ effects_of
       (componentWillUnmount (Rev1.attached browser (both_props custom_worker)))
     = []
  /\ effects_of
       (Rev1.componentDidMount browser (Rev1.constructor (both_props custom_worker)))
     = [Bind (OnWorker custom_worker) "onmessage" HOnMessage;
        Bind (OnWorker custom_worker) "onerror" HOnError].
Proof.
  destruct (rev1_terminates_what_it_made browser url_props eq_refl)
    as (_ & _ & Hmade & _).
  destruct (Hmade eq_refl) as (_ & Hmount & Hterm).
  destruct (rev1_terminates_what_it_made browser (both_props custom_worker) eq_refl)
    as (_ & _ & _ & Hgiven).
  destruct (Hgiven custom_worker eq_refl) as (_ & Hbinds & Hleft).
  split; [exact Hterm|]. split; [exact Hmount|].
  split; [exact Hleft|exact Hbinds].
Defined.

(** ** Rendering *)

Lemma is_undefined_iff (n : value) : is_undefined n = true <-> n = VUndefined.
Proof. destruct n; simpl; split; intros H; try discriminate; reflexivity. Qed.

Lemma is_null_iff (n : value) : is_null n = true <-> n = VNull.
Proof. destruct n; simpl; split; intros H; try discriminate; reflexivity. Qed.

(** X10. The bridge renders nothing exactly when its children are undefined
    or null; otherwise it provides its current state, calling children that
    are a function with it and rendering any other children as they are
    (also falsy ones like the empty string).  A helper rendered below it
    reads that state and never raises. *)
Theorem render_provides_the_state
  (c : Instance) (pending : Children State) (persist : value)
  (children : Children (value * State)) :
  (render c = Null
   <-> Props.children (props c) = StaticContent VUndefined
       \/ Props.children (props c) = StaticContent VNull)
  /\ (forall f, Props.children (props c) = FunctionContent f ->
      render c = Provider (state c) (f (state c)))
  /\ (forall n, Props.children (props c) = StaticContent n ->
      n <> VUndefined -> n <> VNull -> render c = Provider (state c) n)
  /\ (forall v child, render c = Provider v child ->
      v = state c
      /\ Consumer context (provided (render c)) (WebWorker.Pending pending persist)
         = Ok (if pending_shows persist (state c)
               then WebWorker.content pending (state c) else VNull)
      /\ Consumer context (provided (render c)) (WebWorker.Data children)
         = Ok (if is_undefined (data (state c)) then VNull
               else WebWorker.content children (data (state c), state c))
      /\ Consumer context (provided (render c)) (WebWorker.Error children)
         = Ok (if is_undefined (error (state c)) then VNull
               else WebWorker.content children (error (state c), state c))).
Proof.
  unfold render. destruct (Props.children (props c)) as [g|n].
  - split; [split; [discriminate | intros [H|H]; discriminate]|].
    split; [intros f H; inversion H; reflexivity|].
    split; [intros n H; discriminate|].
    intros v child H. inversion H. subst. simpl.
    unfold WebWorker.Pending, WebWorker.Data, WebWorker.Error, pending_shows.
    split; [reflexivity|].
    destruct (is_undefined (data (state c))), (is_undefined (error (state c))),
      (truthy persist); simpl; repeat split; reflexivity.
  - destruct (is_undefined n) eqn:Hu; [apply is_undefined_iff in Hu; subst n|];
      [|destruct (is_null n) eqn:Hn; [apply is_null_iff in Hn; subst n|]]; simpl.
    + split; [split; auto|].
      split; [intros f H; discriminate|].
      split; [intros n H; inversion H; congruence|].
      intros v child H. discriminate.
    + split; [split; auto|].
      split; [intros f H; discriminate|].
      split; [intros n H; inversion H; congruence|].
      intros v child H. discriminate.
    + split.
      { split; [discriminate|]. intros [H|H]; inversion H; subst n; discriminate. }
      split; [intros f H; discriminate|].
      split; [intros n' H; inversion H; reflexivity|].
      intros v child H. inversion H. subst. simpl.
      unfold WebWorker.Pending, WebWorker.Data, WebWorker.Error, pending_shows.
      split; [reflexivity|].
      destruct (is_undefined (data (state c))), (is_undefined (error (state c))),
        (truthy persist); simpl; repeat split; reflexivity.
Qed.

(** ** A mount that fails *)

(** X11. With neither a [url] (a falsy one, like the empty string, counts
    as none) nor a [worker], the mount raises a TypeError and leaves the
    instance as it was constructed: not mounted, no handle.  From then on
    events are ignored, [send] raises the uninitialized error, and the
    unmount raises a TypeError too. *)
Theorem mount_without_url_or_worker_fails
  (window : Window) (p : Props.t) (now : Z) (x : value)
  (m : MessageEvent) (e : ErrorEvent) :
  truthy (Props.url p) = false -> Props.worker p = None ->
  componentDidMount window (constructor p)
  = Thrown (JsTypeError "Cannot read property 'controller' of undefined")
      (constructor p) []
  /\ step (Message now m) (attached window p) = Returned (attached window p) []
  /\ step (Failure now e) (attached window p) = Returned (attached window p) []
  /\ step (Send now x) (attached window p)
     = Thrown (JsError "Worker not initialized") (attached window p) []
  /\ componentWillUnmount (attached window p)
     = Thrown (JsTypeError "Cannot read property 'terminate' of undefined")
         (attached window p) [].
Proof.
  intros Hu Hw.
  assert (Hmount : componentDidMount window (constructor p)
                   = Thrown (JsTypeError "Cannot read property 'controller' of undefined")
                       (constructor p) []).
  { unfold componentDidMount, resolve_worker. simpl props. rewrite Hu, Hw.
    reflexivity. }
  unfold attached. rewrite Hmount. simpl instance_of.
  split; [reflexivity|].
  split; [reflexivity|].
  split; [reflexivity|].
  split; [reflexivity|].
  unfold componentWillUnmount. simpl. rewrite Hw. reflexivity.
Qed.

Lemma mount_without_url_or_worker_witness :
  step (Send 1%Z (VStr "hello")) (attached browser bare_props)
  = Thrown (JsError "Worker not initialized") (attached browser bare_props) [].
Proof.
  destruct (mount_without_url_or_worker_fails browser bare_props 1%Z (VStr "hello")
              (mkMessageEvent VUndefined) (mkErrorEvent VUndefined)
              eq_refl eq_refl) as (_ & _ & _ & H & _).
  exact H.
Defined.

(** ** A handle with a controller *)

(** X12. Given a [worker] with a [controller] (and no [url]), the bridge
    takes the controller as its handle: the handlers go to the slots of the
    controller or, when it has none, to the port of a channel, never to the
    given object; every later dispatch goes to the controller; the unmount
    terminates nothing.  Without a controller the given object itself is
    the handle. *)
Theorem controller_is_the_handle
  (window : Window) (p : Props.t) (w0 : Worker)
  (ins : list Input) (now : Z) (x : value) :
  truthy (Props.url p) = false -> Props.worker p = Some w0 ->
  worker (attached window p)
  = Some (match controller w0 with Some sw => sw | None => w0 end)
  /\ (forall sw, controller w0 = Some sw ->
      filter is_bind (effects_of (componentDidMount window (constructor p)))
      = (if has_onmessage sw then
           [Bind (OnWorker sw) "onmessage" HOnMessage;
            Bind (OnWorker sw) "onerror" HOnError]
         else
           [Bind (OnPort (port1 (new_MessageChannel window))) "onmessage" HOnMessage;
            Bind (OnPort (port1 (new_MessageChannel window))) "onmessageerror" HOnError])
      /\ (forall ef,
            In ef (effects_of (step (Send now x) (fst (run ins (attached window p))))) ->
            is_dispatch ef = true ->
            ef = CallPostMessage (Some sw) (serialize p x)
                   (if has_onmessage sw then None
                    else Some [port2 (new_MessageChannel window)])))
  /\ filter is_terminate (snd (run (ins ++ [Unmount]) (attached window p))) = [].
Proof.
  intros Hu Hw.
  set (h := match controller w0 with Some sw => sw | None => w0 end).
  assert (Hres : resolve_worker window p = Ok (h, [])).
  { unfold resolve_worker. rewrite Hu, Hw. reflexivity. }
  destruct (attached_wiring window p h [] Hres) as (Hp & Hh & Hm & Hq & Hc).
  destruct (run_wiring ins (attached window p) Hq) as (Hp' & Hw' & Hc' & Hq').
  split; [exact Hh|].
  split.
  - intros sw Hsw. assert (h = sw) by (unfold h; rewrite Hsw; reflexivity). subst sw.
    split.
    + rewrite (componentDidMount_wires window p h [] Hres).
      destruct (has_onmessage h); reflexivity.
    + intros ef Hin He.
      rewrite Hh in Hw'.
      rewrite (send_dispatch_shape now x _ h ef Hw' Hq' Hin He).
      unfold transfer_of. rewrite Hp', Hp, Hc', Hc.
      destruct (has_onmessage h); reflexivity.
  - assert (Hrun : forall l c1, queue c1 = [] -> Props.worker (props c1) = Some w0 ->
              filter is_terminate (snd (run l c1)) = []).
    { induction l as [|i rest IH]; intros c1 Hq1 Hw1; [reflexivity|].
      destruct (deliver_wiring i c1 Hq1) as (Hp1 & _ & _ & Hq1').
      simpl run.
      specialize (IH (instance_of (deliver i c1)) Hq1').
      rewrite Hp1 in IH. specialize (IH Hw1).
      destruct (run rest (instance_of (deliver i c1))) as [c2 fx].
      simpl snd in *. rewrite filter_app, IH, app_nil_r.
      rewrite (deliver_effects i c1 Hq1).
      destruct i as [n1 ev|n1 ev|n1 x1|].
      - destruct (mounted c1); simpl;
          [apply filter_notify_message|]; reflexivity.
      - destruct (mounted c1); simpl;
          [apply filter_notify_error|]; reflexivity.
      - destruct (mounted c1 && can_send c1); reflexivity.
      - rewrite Hw1. reflexivity. }
    apply Hrun; [exact Hq | rewrite Hp; exact Hw].
Qed.

Lemma controller_is_the_handle_witness :
  worker
    (attached browser
       (worker_props (container (Some (service_worker (VStr "activated"))))))
  = Some (service_worker (VStr "activated")).
Proof.
  destruct (controller_is_the_handle browser
              (worker_props (container (Some (service_worker (VStr "activated")))))
              (container (Some (service_worker (VStr "activated"))))
              [] 1%Z (VStr "hello") eq_refl eq_refl) as (H & _).
  exact H.
Defined.

(** ** The mount of the earlier revision *)

Lemma then_flush_instance (c : Instance) (fx : list Effect) :
  instance_of (then_flush (Returned c fx)) = fst (flush c).
Proof. simpl. destruct (flush c); reflexivity. Qed.

Lemma flush_keeps (c : Instance) :
  mounted (fst (flush c)) = mounted c
  /\ worker (fst (flush c)) = worker c
  /\ queue (fst (flush c)) = [].
Proof.
  unfold flush. destruct (queue c) eqn:Hq; simpl; auto.
Qed.

(** X14. In the earlier revision the mount resets the Session State: once
    its update is processed, all six fields are as in a new bridge, whatever
    the state was and whatever updates were still pending, and the bridge
    is mounted on the resolved handle.  The mount of the later revision does not touch the
    state. *)
Theorem rev1_mount_resets_the_state (window : Window) (c : Instance) :
  messages (state (instance_of (then_flush (Rev1.componentDidMount window c)))) = []
  /\ errors (state (instance_of (then_flush (Rev1.componentDidMount window c)))) = []
  /\ data (state (instance_of (then_flush (Rev1.componentDidMount window c))))
     = VUndefined
  /\ error (state (instance_of (then_flush (Rev1.componentDidMount window c))))
     = VUndefined
  /\ updatedAt (state (instance_of (then_flush (Rev1.componentDidMount window c))))
     = VUndefined
  /\ lastPostAt (state (instance_of (then_flush (Rev1.componentDidMount window c))))
     = VUndefined
  /\ mounted (instance_of (then_flush (Rev1.componentDidMount window c))) = true
  /\ queue (instance_of (then_flush (Rev1.componentDidMount window c))) = []
  /\ worker (instance_of (then_flush (Rev1.componentDidMount window c)))
     = Some (fst (Rev1.resolve_worker window (props c)))
  /\ state (instance_of (componentDidMount window c)) = state c
  /\ queue (instance_of (componentDidMount window c)) = queue c.
Proof.
  unfold Rev1.componentDidMount.
  destruct (Rev1.resolve_worker window (props c)) as [w fx] eqn:Hres.
  rewrite then_flush_instance.
  set (c1 := setState (ObjectPayload Rev1.initial_keys) NoCallback
               (set_mounted true (set_worker w c))).
  destruct (flush_keeps c1) as (Hm & Hw & Hq).
  rewrite flush_state, Hm, Hw, Hq.
  unfold pending_state, c1. simpl queue. simpl state.
  rewrite map_app, fold_left_app. simpl.
  repeat split; try reflexivity.
  - unfold componentDidMount.
    destruct (resolve_worker window (props c)) as [[w' fx']|e]; [|reflexivity].
    destruct (has_onmessage w'); reflexivity.
  - unfold componentDidMount.
    destruct (resolve_worker window (props c)) as [[w' fx']|e]; [|reflexivity].
    destruct (has_onmessage w'); reflexivity.
Qed.

(** ** The life of a Worker the bridge made *)

Lemma run_app (l1 l2 : list Input) :
  forall c : Instance,
    run (l1 ++ l2) c
    = (fst (run l2 (fst (run l1 c))),
       snd (run l1 c) ++ snd (run l2 (fst (run l1 c)))).
Proof.
  induction l1 as [|i rest IH]; intros c.
  - simpl. destruct (run l2 c); reflexivity.
  - simpl. rewrite IH.
    destruct (run rest (instance_of (deliver i c))) as [c1 fx1]. simpl.
    rewrite app_assoc. reflexivity.
Qed.

Lemma run_terminates_nothing (ins : list Input) :
  forall c : Instance,
    queue c = [] -> existsb is_unmount ins = false ->
    filter is_terminate (snd (run ins c)) = [].
Proof.
  induction ins as [|i rest IH]; intros c Hq Hu; [reflexivity|].
  simpl in Hu. apply orb_false_elim in Hu. destruct Hu as [Hi Hrest].
  destruct (deliver_wiring i c Hq) as (_ & _ & _ & Hq').
  specialize (IH (instance_of (deliver i c)) Hq' Hrest).
  simpl run. destruct (run rest (instance_of (deliver i c))) as [c' fx].
  simpl snd in *. rewrite filter_app, IH, app_nil_r.
  rewrite (deliver_effects i c Hq).
  destruct i as [now ev|now ev|now x|]; [| | |discriminate].
  - destruct (mounted c); simpl;
      [apply filter_notify_message|]; reflexivity.
  - destruct (mounted c); simpl;
      [apply filter_notify_error|]; reflexivity.
  - destruct (mounted c && can_send c); reflexivity.
Qed.

Lemma run_stays_mounted (ins : list Input) :
  forall c : Instance,
    queue c = [] -> existsb is_unmount ins = false ->
    mounted (fst (run ins c)) = mounted c.
Proof.
  induction ins as [|i rest IH]; intros c Hq Hu; [reflexivity|].
  simpl in Hu. apply orb_false_elim in Hu. destruct Hu as [Hi Hrest].
  destruct (deliver_wiring i c Hq) as (_ & _ & _ & Hq').
  pose proof (mounted_after_deliver i c Hq) as Hm. rewrite Hi in Hm.
  specialize (IH (instance_of (deliver i c)) Hq' Hrest).
  simpl run. destruct (run rest (instance_of (deliver i c))) as [c' fx].
  simpl fst in *. rewrite IH. exact Hm.
Qed.

(** X15. A Worker the bridge made from [url] alone lives as long as the
    bridge: whatever events and sends come in between, it is terminated
    exactly once, by the unmount, and not before. *)
Theorem created_worker_lives_until_unmount
  (window : Window) (p : Props.t) (ins : list Input) :
  truthy (Props.url p) = true -> Props.worker p = None ->
  has_terminate (new_Worker window (Props.url p) (Props.options p)) = true ->
  existsb is_unmount ins = false ->
  filter is_terminate (snd (run ins (attached window p))) = []
  /\ filter is_terminate (snd (run (ins ++ [Unmount]) (attached window p)))
     = [CallTerminate (new_Worker window (Props.url p) (Props.options p))]
  /\ mounted (fst (run (ins ++ [Unmount]) (attached window p))) = false.
Proof.
  intros Hu Hw Ht Hins.
  set (w := new_Worker window (Props.url p) (Props.options p)) in *.
  assert (Hres : resolve_worker window p
                 = Ok (w, [NewWorker (Props.url p) (Props.options p)])).
  { unfold resolve_worker. rewrite Hu. reflexivity. }
  destruct (attached_wiring window p w _ Hres) as (Hp & Hh & Hm & Hq & _).
  destruct (run_wiring ins (attached window p) Hq) as (Hp' & Hw' & _ & Hq').
  pose proof (run_terminates_nothing ins (attached window p) Hq Hins) as Hnone.
  split; [exact Hnone|].
  rewrite run_app. simpl fst. simpl snd.
  rewrite filter_app, Hnone. simpl app.
  set (c1 := fst (run ins (attached window p))) in *.
  assert (Hstep : step Unmount c1 = Returned (set_mounted false c1) [CallTerminate w]).
  { unfold step, componentWillUnmount. rewrite Hp', Hp, Hw, Hw', Hh, Ht.
    simpl. unfold flush. simpl. rewrite Hq'. reflexivity. }
  assert (Hm1 : mounted c1 = true).
  { unfold c1. rewrite run_stays_mounted by assumption. exact Hm. }
  simpl run. rewrite (deliver_mounted Unmount c1 Hm1), Hstep. simpl.
  split; reflexivity.
Qed.

Lemma created_worker_witness :
  filter is_terminate (snd (run (mixed_inputs ++ [Unmount]) (attached browser url_props)))
  = [CallTerminate (dedicated_worker 0)].
Proof.
  destruct (created_worker_lives_until_unmount browser url_props mixed_inputs
              eq_refl eq_refl eq_refl eq_refl) as (_ & H & _).
  exact H.
Defined.
